(** * GenAI content monitor: classifier, summarizer, seen-article ledger, scheduler

    A shallow embedding of the core of the monitor:
    - [ai_processor.py]: [AIProcessor.is_genai_related],
      [AIProcessor.summarize_article], [AIProcessor._generate_extractive_summary];
    - [storage.py]: [ArticleStorage];
    - [scheduler.py] and [run_scheduler.py]: cadence selection.

    Python [str] values are modelled as [string]s of 8-bit characters.  Case
    folding, whitespace and word characters follow Python on the ASCII range;
    characters above 127 are left alone by [lower] and are neither whitespace
    nor word characters. *)

From Stdlib Require Import ZArith QArith Ascii String List Sorted Floats.
From stdpp Require Import gmap strings list.

Local Open Scope string_scope.
Local Open Scope Z_scope.

(** ** Python string primitives *)

Module Py.

(** Exceptions that the modelled code can meet. *)
Inductive Exn :=
| OSError | JSONDecodeError | AttributeError | TypeError
| ValueError | OverflowError | RuntimeError.

Inductive result (A : Type) :=
| Ok (a : A)
| Raise (e : Exn).
Arguments Ok {A} a.
Arguments Raise {A} e.

(** [try: body except Exception: handler]. *)
Definition try_except {A} (body : result A) (handler : Exn -> A) : A :=
  match body with
  | Ok a => a
  | Raise e => handler e
  end.

Definition code (c : ascii) : N := N_of_ascii c.

Definition isupper (c : ascii) : bool := ((65 <=? code c) && (code c <=? 90))%N.
Definition isdigit (c : ascii) : bool := ((48 <=? code c) && (code c <=? 57))%N.
Definition isalpha (c : ascii) : bool :=
  isupper c || ((97 <=? code c) && (code c <=? 122))%N.
(** [\w]: letters, digits and the underscore. *)
Definition isword (c : ascii) : bool := isalpha c || isdigit c || (code c =? 95)%N.
(** [str.isspace]: TAB, LF, VT, FF, CR, FS, GS, RS, US and the space. *)
Definition isspace (c : ascii) : bool :=
  ((9 <=? code c) && (code c <=? 13))%N || ((28 <=? code c) && (code c <=? 32))%N.

Definition lower_char (c : ascii) : ascii :=
  if isupper c then ascii_of_N (code c + 32) else c.

(** [s.lower()] *)
Fixpoint lower (s : string) : string :=
  match s with
  | EmptyString => EmptyString
  | String c s' => String (lower_char c) (lower s')
  end.

(** [len(s)] *)
Definition len (s : string) : Z := Z.of_nat (String.length s).

(** [s.startswith(p)] *)
Fixpoint startswith (p s : string) : bool :=
  match p, s with
  | EmptyString, _ => true
  | String a p', String b s' => if Ascii.eqb a b then startswith p' s' else false
  | String _ _, EmptyString => false
  end.

(** [k in s]: [k] occurs in [s] as a substring. *)
Fixpoint contains (k s : string) : bool :=
  startswith k s ||
  match s with
  | EmptyString => false
  | String _ s' => contains k s'
  end.

(** [s.endswith(p)]: [p] is one of the suffixes of [s]. *)
Fixpoint endswith (p s : string) : bool :=
  String.eqb p s ||
  match s with
  | EmptyString => false
  | String _ s' => endswith p s'
  end.

(** [s.split()]: the maximal runs of non-whitespace characters.  [cur] is the
    run being read, if any. *)
Fixpoint split_ws_aux (cur : option string) (s : string) : list string :=
  match s with
  | EmptyString => match cur with Some w => [w] | None => [] end
  | String c s' =>
      if isspace c
      then match cur with
           | Some w => w :: split_ws_aux None s'
           | None => split_ws_aux None s'
           end
      else split_ws_aux (Some (default "" cur ++ String c "")) s'
  end.

Definition split_ws (s : string) : list string := split_ws_aux None s.

(** [s.split('. ')]: cut at each occurrence of the two-character separator,
    scanning from the left; [cur] is the piece being read. *)
Fixpoint split_dot_space_aux (cur : string) (s : string) : list string :=
  match s with
  | EmptyString => [cur]
  | String "." (String " " rest) => cur :: split_dot_space_aux "" rest
  | String c s' => split_dot_space_aux (cur ++ String c "") s'
  end.

Definition split_dot_space (s : string) : list string := split_dot_space_aux "" s.

(** [sep.join(parts)] *)
Fixpoint join (sep : string) (parts : list string) : string :=
  match parts with
  | [] => ""
  | [p] => p
  | p :: ps => p ++ sep ++ join sep ps
  end.

(** The first [n] characters. *)
Fixpoint take (n : nat) (s : string) : string :=
  match n, s with
  | S n', String c s' => String c (take n' s')
  | _, _ => ""
  end.

(** [s[:m]]: a negative bound counts from the end. *)
Definition slice_to (m : Z) (s : string) : string :=
  if 0 <=? m then take (Z.to_nat m) s
  else take (Z.to_nat (len s + m)) s.

Fixpoint lstrip (s : string) : string :=
  match s with
  | String c s' => if isspace c then lstrip s' else s
  | EmptyString => EmptyString
  end.

(** [s.strip()] *)
Definition strip (s : string) : string :=
  String.rev (lstrip (String.rev (lstrip s))).

(** [s.split(sep)] for a separator of one character: the pieces between its
    occurrences, empty ones included. *)
Fixpoint split_char_aux (sep : ascii) (cur : string) (s : string) : list string :=
  match s with
  | EmptyString => [cur]
  | String c s' =>
      if Ascii.eqb c sep then cur :: split_char_aux sep "" s'
      else split_char_aux sep (cur ++ String c "") s'
  end.

Definition split_char (sep : ascii) (s : string) : list string :=
  split_char_aux sep "" s.

(** The text after the first [n] characters. *)
Fixpoint skip (n : nat) (s : string) : string :=
  match n, s with
  | S n', String _ s' => skip n' s'
  | _, _ => s
  end.

(** [s[m:]]: a negative bound counts from the end. *)
Definition slice_from (m : Z) (s : string) : string :=
  if 0 <=? m then skip (Z.to_nat m) s
  else skip (Z.to_nat (len s + m)) s.

(** [s * n]: [n] copies of [s], none when [n] is not positive. *)
Definition times (s : string) (n : Z) : string :=
  String.concat "" (replicate (Z.to_nat n) s).

End Py.

(** ** The fragment of [re] used by the classifier

    Only the constructs of the seven patterns are modelled: literal text,
    [\d+] and [\s+] (one or more characters of a class), [?], [|],
    concatenation and [\b].  Matching is by backtracking with a continuation;
    [prev] is the character before the current position, which [\b] needs. *)

Module Re.
Import Py.

Inductive regex :=
| Lit (s : string)
| Plus (cls : ascii -> bool)
| Opt (r : regex)
| Alt (r1 r2 : regex)
| Seq (r1 r2 : regex)
| Boundary.

Fixpoint lit (l : string) (prev : option ascii) (s : string)
  : option (option ascii * string) :=
  match l, s with
  | EmptyString, _ => Some (prev, s)
  | String a l', String b s' => if Ascii.eqb a b then lit l' (Some b) s' else None
  | String _ _, EmptyString => None
  end.

Fixpoint plus (cls : ascii -> bool) (s : string)
  (k : option ascii -> string -> bool) : bool :=
  match s with
  | String c s' => cls c && (k (Some c) s' || plus cls s' k)
  | EmptyString => false
  end.

(** [\b]: exactly one of the two neighbours is a word character; the ends of
    the text count as non-word. *)
Definition at_boundary (prev : option ascii) (s : string) : bool :=
  xorb (from_option isword false prev)
       (match s with String c _ => isword c | EmptyString => false end).

Fixpoint matches (r : regex) (prev : option ascii) (s : string)
  (k : option ascii -> string -> bool) : bool :=
  match r with
  | Lit l => match lit l prev s with Some (p, s') => k p s' | None => false end
  | Plus cls => plus cls s k
  | Opt r1 => matches r1 prev s k || k prev s
  | Alt r1 r2 => matches r1 prev s k || matches r2 prev s k
  | Seq r1 r2 => matches r1 prev s (fun p s' => matches r2 p s' k)
  | Boundary => at_boundary prev s && k prev s
  end.

Fixpoint search_from (r : regex) (prev : option ascii) (s : string) : bool :=
  matches r prev s (fun _ _ => true) ||
  match s with
  | String c s' => search_from r (Some c) s'
  | EmptyString => false
  end.

(** [re.search(r, s)] is not [None]. *)
Definition search (r : regex) (s : string) : bool := search_from r None s.

Definition cat (rs : list regex) : regex := foldr Seq (Lit "") rs.

Fixpoint alts (r : regex) (rs : list regex) : regex :=
  match rs with
  | [] => r
  | r' :: rs' => Alt r (alts r' rs')
  end.

(** [\b(a|b|...)\b] *)
Definition word (r : regex) (rs : list regex) : regex :=
  cat [Boundary; alts r rs; Boundary].

End Re.

(** ** [ai_processor.py] *)

Module AIProcessor.
Import Py Re.

(** [Config._parse_keywords] without a [GENAI_KEYWORDS] environment variable. *)
Definition default_keywords : list string :=
  [ "generative ai"; "genai"; "gpt"; "large language model"; "llm";
    "chatgpt"; "claude"; "artificial intelligence"; "machine learning";
    "neural network"; "transformer"; "diffusion"; "stable diffusion";
    "midjourney"; "dall-e"; "text generation"; "image generation";
    "natural language processing"; "nlp"; "deep learning" ].

(** What [Config._parse_keywords] guarantees of a keyword read from the
    environment, [keyword.strip().lower()] kept [if keyword.strip()]: it is not
    empty and does not start with whitespace. *)
Definition stripped (keyword : string) : bool :=
  match keyword with
  | EmptyString => false
  | String c _ => negb (isspace c)
  end.

Definition genai_patterns : list regex :=
  [ word (cat [Lit "gpt"; Opt (Lit "-"); Plus isdigit])
      [Lit "chatgpt"; Lit "claude"; cat [Lit "dall"; Opt (Lit "-"); Lit "e"];
       Lit "midjourney"];
    cat [Boundary; alts (Lit "large language model") [Lit "llm"]; Opt (Lit "s");
         Boundary];
    word (Lit "neural network") [Lit "transformer"; Lit "diffusion"];
    word (Lit "text generation") [Lit "image generation"; Lit "content generation"];
    word (Lit "artificial intelligence") [Lit "machine learning"];
    word (Lit "natural language processing") [Lit "nlp"];
    word (cat [Lit "generative"; Plus isspace; Lit "ai"]) [Lit "genai"] ].

Definition context_indicators : list string :=
  [ "artificial intelligence"; "machine learning"; "deep learning";
    "neural"; "algorithm"; "model training"; "language model";
    "computer vision"; "natural language" ].

(** The counting loops: [n += 1] for each item that passes the test. *)
Definition count_if {A} (test : A -> bool) (items : list A) : Z :=
  fold_left (fun n x => if test x then n + 1 else n) items 0.

Definition keyword_matches (genai_keywords : list string) (content : string) : Z :=
  count_if (fun keyword => contains keyword (lower content)) genai_keywords.

Definition word_count (content : string) : Z :=
  Z.of_nat (length (split_ws content)).

(** [keyword_matches / max(word_count, 1) if word_count > 0 else 0].  The
    quotient is taken in the rationals; its comparison with 0.001 below
    agrees with the one on Python's floats for every text of fewer than
    10^15 words. *)
Definition keyword_density (genai_keywords : list string) (content : string) : Q :=
  if 0 <? word_count content
  then (inject_Z (keyword_matches genai_keywords content)
        / inject_Z (Z.max (word_count content) 1))%Q
  else 0%Q.

Definition pattern_matches (content : string) : Z :=
  count_if (fun pattern => search pattern (lower content)) genai_patterns.

Definition context_matches (content : string) : Z :=
  count_if (fun indicator => contains indicator (lower content)) context_indicators.

(** [a > b] on rationals. *)
Definition Qgtb (a b : Q) : bool := negb (Qle_bool a b).

Definition is_genai_related (genai_keywords : list string) (content : string) : bool :=
  if String.eqb content "" then false
  else if (3 <=? keyword_matches genai_keywords content)
          || (2 <=? pattern_matches content) then true
  else if (1 <=? keyword_matches genai_keywords content)
          && (Qgtb (keyword_density genai_keywords content) (1 # 1000)
              || (1 <=? pattern_matches content)) then true
  else if (3 <=? context_matches content)
          && (1 <=? keyword_matches genai_keywords content) then true
  else false.

(** The model collaborator, [self.summarizer(content, max_length=...,
    min_length=..., ...)[0]['summary_text']]: it returns text or raises. *)
Definition Summarizer : Type := string -> Z -> Z -> result string.

(** The score of the [i]-th sentence: one per keyword found in it, and a bonus
    of 0.5 for the first three sentences. *)
Definition score_sentence (genai_keywords : list string) (i : nat) (sentence : string)
  : Q * string :=
  let score := count_if (fun keyword => contains keyword (lower sentence))
                        genai_keywords in
  ((if (i <? 3)%nat then inject_Z score + (1 # 2) else inject_Z score)%Q, sentence).

(** [scored_sentences.sort(key=lambda x: x[0], reverse=True)]: a stable sort,
    highest score first; sentences of equal score keep their order. *)
Fixpoint insert_desc (x : Q * string) (l : list (Q * string)) : list (Q * string) :=
  match l with
  | [] => [x]
  | y :: l' => if Qle_bool (fst y) (fst x) then x :: l else y :: insert_desc x l'
  end.

Definition sort_desc (l : list (Q * string)) : list (Q * string) :=
  foldr insert_desc [] l.

(** The selection loop: sentences are taken in order until one would push
    [current_length] over [max_length]. *)
Fixpoint select_parts (max_length current_length : Z) (scored : list (Q * string))
  : list string :=
  match scored with
  | [] => []
  | (_, sentence) :: rest =>
      if max_length <? current_length + len sentence then []
      else sentence :: select_parts max_length (current_length + len sentence) rest
  end.

(** No operation of the body raises on a string and an integer, so the
    [except] branch of the source is unreachable and is left out. *)
Definition _generate_extractive_summary (genai_keywords : list string)
  (content : string) (max_length : Z) : string :=
  let sentences := split_dot_space content in
  if (length sentences <=? 2)%nat then
    if max_length <? len content then slice_to max_length content ++ "..."
    else content
  else
    let scored_sentences := sort_desc (imap (score_sentence genai_keywords) sentences) in
    let summary_parts := select_parts max_length 0 scored_sentences in
    let summary := join ". " summary_parts in
    let summary :=
      if negb (String.eqb summary "") && negb (endswith "." summary)
      then summary ++ "." else summary in
    if negb (String.eqb summary "") then summary
    else slice_to max_length content ++ "...".

(** The input of the model is cut to its first 1024 words. *)
Definition cap_input (content : string) : string :=
  let max_input_length := 1024%nat in
  if (max_input_length <? length (split_ws content))%nat
  then join " " (firstn max_input_length (split_ws content))
  else content.

(** [summarizer] is [None] when the model could not be loaded. *)
Definition summarize_article (genai_keywords : list string)
  (summarizer : option Summarizer) (content : string) (max_length min_length : Z)
  : string :=
  match summarizer with
  | None => "Summary not available"
  | Some model =>
      if String.eqb content "" then "Summary not available"
      else
        let content := cap_input content in
        match model content max_length min_length with
        | Ok summary_text =>
            let summary := strip summary_text in
            if endswith "." summary then summary else summary ++ "."
        | Raise _ => _generate_extractive_summary genai_keywords content max_length
        end
  end.

End AIProcessor.

(** ** [storage.py]

    The ledger is the dictionary [self.seen_articles]; its keys, and those of
    an entry, are optional because the code reads them with [.get] and a
    default.  Timestamps stay ISO strings, as stored.  A datetime is its
    number of microseconds since 0001-01-01T00:00:00. *)

Module ArticleStorage.
Import Py.

Record SeenArticle := {
  title : option string;
  first_seen : option string;
  seen_count : option Z
}.

Record Ledger := {
  created_at : option string;
  last_updated : option string;
  articles : option (gmap string SeenArticle)
}.

(** What is found at [self.storage_file]. *)
Inductive File :=
| Absent                 (* [os.path.exists] is false *)
| Unreadable (e : Exn)   (* [open] or [json.load] raises *)
| NotAnObject            (* JSON that is no object: [data.get] raises *)
| Object (data : Ledger).

(** What [datetime.fromisoformat] makes of a string: a [ValueError], a naive
    datetime, or one that carries a UTC offset. *)
Inductive Parsed :=
| Invalid
| Naive (t : Z)
| Aware (t : Z).

(** The storage object, the file it owns, and the number of clock readings
    taken so far. *)
Record Storage := {
  seen_articles : Ledger;
  file : File;
  ticks : nat
}.

Definition us_per_day : Z := 86400000000.
(** [datetime.min] and [datetime.max] (9999-12-31T23:59:59.999999). *)
Definition datetime_min : Z := 0.
Definition datetime_max : Z := 3652059 * us_per_day - 1.

(** [timedelta(days=d)] *)
Definition timedelta_days (d : Z) : result Z :=
  if Z.abs d <=? 999999999 then Ok (d * us_per_day) else Raise OverflowError.

(** [t - delta] on a datetime *)
Definition datetime_sub (t delta : Z) : result Z :=
  if (datetime_min <=? t - delta) && (t - delta <=? datetime_max)
  then Ok (t - delta) else Raise OverflowError.

Definition bind {A B} (r : result A) (k : A -> result B) : result B :=
  match r with
  | Ok a => k a
  | Raise e => Raise e
  end.

Section Env.

(** The surroundings: the [n]-th reading of [datetime.now()], the two
    conversions of the [datetime] library, and whether the write of the
    [n]-th save goes through. *)
Variable clock : nat -> Z.
Variable isoformat : Z -> string.
Variable fromisoformat : string -> Parsed.
Variable write_ok : nat -> bool.

(** The empty ledger of [_load_seen_articles], with two clock readings. *)
Definition new_ledger (n : nat) : Ledger :=
  {| created_at := Some (isoformat (clock n));
     last_updated := Some (isoformat (clock (S n)));
     articles := Some ∅ |}.

Definition _load_seen_articles (f : File) (n : nat) : Ledger * nat :=
  try_except
    (match f with
     | Object data => Ok (data, n)
     | Unreadable e => Raise e
     | NotAnObject => Raise AttributeError
     | Absent => Ok (new_ledger n, S (S n))
     end)
    (fun _ => (new_ledger n, S (S n))).

(** [ArticleStorage(storage_file)] *)
Definition init (f : File) (n : nat) : Storage :=
  let '(data, n') := _load_seen_articles f n in
  {| seen_articles := data; file := f; ticks := n' |}.

(** The temporary file is renamed over the store only when every step
    succeeded; a failure is logged and leaves the store as it was. *)
Definition _save_seen_articles (st : Storage) : Storage :=
  let data := {| created_at := created_at (seen_articles st);
                 last_updated := Some (isoformat (clock (ticks st)));
                 articles := articles (seen_articles st) |} in
  {| seen_articles := data;
     file := if write_ok (ticks st) then Object data else file st;
     ticks := S (ticks st) |}.

(** [self.seen_articles.get("articles", {})] *)
Definition get_seen_articles (st : Storage) : gmap string SeenArticle :=
  default ∅ (articles (seen_articles st)).

Definition is_article_seen (url : string) (st : Storage) : bool :=
  bool_decide (is_Some (get_seen_articles st !! url)).

Definition mark_article_seen (url : string) (title : option string) (st : Storage)
  : Storage :=
  let arts := get_seen_articles st in
  let entry :=
    {| title := title;
       first_seen := Some (isoformat (clock (ticks st)));
       seen_count := Some (default 0 (arts !! url ≫= seen_count) + 1) |} in
  _save_seen_articles
    {| seen_articles :=
         {| created_at := created_at (seen_articles st);
            last_updated := last_updated (seen_articles st);
            articles := Some (<[url := entry]> arts) |};
       file := file st;
       ticks := S (ticks st) |}.

(** The test of the cleanup loop: an entry goes when its date does not parse,
    when comparing it with the naive cutoff raises [TypeError], or when it is
    before the cutoff. *)
Definition is_old (cutoff_date : Z) (article_data : SeenArticle) : bool :=
  match fromisoformat (default "" (first_seen article_data)) with
  | Invalid => true
  | Aware _ => true
  | Naive t => t <? cutoff_date
  end.

Definition urls_to_remove (cutoff_date : Z) (arts : gmap string SeenArticle)
  : list string :=
  (List.filter (fun '(url, article_data) => is_old cutoff_date article_data)
               (map_to_list arts)).*1.

(** [datetime.now() - timedelta(days=days_old)], with [n] clock readings
    taken before. *)
Definition cutoff_date (days_old : Z) (n : nat) : result Z :=
  bind (timedelta_days days_old) (fun delta => datetime_sub (clock n) delta).

(** An [OverflowError] of the cutoff is caught by the outer handler, which
    only logs.  The order in which the collected URLs are deleted does not
    matter. *)
Definition cleanup_old_articles (days_old : Z) (st : Storage) : Storage :=
  let st' := {| seen_articles := seen_articles st; file := file st;
                ticks := S (ticks st) |} in
  try_except
    (bind (cutoff_date days_old (ticks st)) (fun cutoff =>
       let arts := get_seen_articles st' in
       let urls := urls_to_remove cutoff arts in
       match urls with
       | [] => Ok st'
       | _ :: _ =>
           Ok (_save_seen_articles
                 {| seen_articles :=
                      {| created_at := created_at (seen_articles st');
                         last_updated := last_updated (seen_articles st');
                         articles := Some (foldr delete arts urls) |};
                    file := file st';
                    ticks := ticks st' |})
       end))
    (fun _ => st').

End Env.

(** [get_stats()], without the path of the file, which never changes.
    [getsize] is [os.path.getsize] on a file that exists. *)
Record Stats := {
  total_articles_seen : nat;
  stats_created_at : option string;
  stats_last_updated : option string;
  file_size_bytes : Z
}.

Definition get_stats (getsize : File -> Z) (st : Storage) : Stats :=
  {| total_articles_seen := size (get_seen_articles st);
     stats_created_at := created_at (seen_articles st);
     stats_last_updated := last_updated (seen_articles st);
     file_size_bytes := match file st with
                        | Absent => 0
                        | f => getsize f
                        end |}.

End ArticleStorage.

(** ** [scheduler.py] and [run_scheduler.py]

    The job registry of the [schedule] library and the log are the state; a
    job records what [every(n).unit.at(time)] sets. *)

Module ContentScheduler.

Inductive Unit := hours | days | weeks.

Record Job := {
  interval : nat;
  unit : Unit;
  start_day : option string;
  at_time : option string
}.

Inductive Level := INFO | WARNING | ERROR.

Record Runtime := {
  jobs : list Job;
  log : list (Level * string)
}.

Definition logger (lvl : Level) (msg : string) (rt : Runtime) : Runtime :=
  {| jobs := jobs rt; log := log rt ++ [(lvl, msg)] |}.

(** [schedule. ... .do(self.run_monitoring)] *)
Definition do (j : Job) (rt : Runtime) : Runtime :=
  {| jobs := jobs rt ++ [j]; log := log rt |}.

Definition every_hours (n : nat) : Job :=
  {| interval := n; unit := hours; start_day := None; at_time := None |}.
Definition every_day_at (time : string) : Job :=
  {| interval := 1; unit := days; start_day := None; at_time := Some time |}.
Definition every_monday_at (time : string) : Job :=
  {| interval := 1; unit := weeks; start_day := Some "monday"; at_time := Some time |}.

Definition setup_schedule (schedule_interval : string) (rt : Runtime) : Runtime :=
  let rt := logger INFO ("Setting up schedule: " ++ schedule_interval) rt in
  if String.eqb schedule_interval "hourly" then do (every_hours 1) rt
  else if String.eqb schedule_interval "every_2_hours" then do (every_hours 2) rt
  else if String.eqb schedule_interval "every_6_hours" then do (every_hours 6) rt
  else if String.eqb schedule_interval "daily" then do (every_day_at "09:00") rt
  else if String.eqb schedule_interval "twice_daily"
       then do (every_day_at "18:00") (do (every_day_at "09:00") rt)
  else if String.eqb schedule_interval "weekly" then do (every_monday_at "09:00") rt
  else
    do (every_day_at "09:00")
       (logger WARNING ("Unknown schedule interval: " ++ schedule_interval
                        ++ ", defaulting to daily") rt).

(** The script's own entry point: [ContentScheduler(sys.argv[1])], or
    ["daily"] without an argument; nothing is checked first. *)
Definition main (argv : list string) (rt : Runtime) : Runtime :=
  setup_schedule (match argv with _ :: arg :: _ => arg | _ => "daily" end) rt.

End ContentScheduler.

Module RunScheduler.
Import ContentScheduler.

Definition valid_intervals : list string :=
  [ "hourly"; "every_2_hours"; "every_6_hours"; "daily"; "twice_daily"; "weekly" ].

Inductive Outcome :=
| SysExit (status : Z)   (* [sys.exit(status)] *)
| Started.               (* the scheduler is configured and [start()] is entered *)

(** [main()] up to the call of [scheduler.start()]; [argv] is [sys.argv] and
    [env] the value of [SCHEDULE_INTERVAL], if set. *)
Definition main (argv : list string) (env : option string) (rt : Runtime)
  : Outcome * Runtime :=
  let schedule_interval :=
    match argv with
    | _ :: arg :: _ => arg
    | _ => default "daily" env
    end in
  let rt := logger INFO "Starting GenAI Content Monitor Scheduler" rt in
  let rt := logger INFO ("Schedule interval: " ++ schedule_interval) rt in
  if negb (existsb (String.eqb schedule_interval) valid_intervals) then
    let rt := logger ERROR ("Invalid schedule interval: " ++ schedule_interval) rt in
    let rt := logger ERROR ("Valid options: " ++ Py.join ", " valid_intervals) rt in
    (SysExit 1, rt)
  else (Started, setup_schedule schedule_interval rt).

End RunScheduler.

(** ** [config.py]: the keyword and website lists *)

Module Config.
Import Py.

(** [_parse_keywords]; [keywords_str] is [os.getenv("GENAI_KEYWORDS", "")]. *)
Definition _parse_keywords (keywords_str : string) : list string :=
  if String.eqb keywords_str "" then AIProcessor.default_keywords
  else
    map (fun keyword => lower (strip keyword))
        (List.filter (fun keyword => negb (String.eqb (strip keyword) ""))
                     (split_char "," keywords_str)).

Definition default_websites : list string :=
  [ "https://www.jpmorganchase.com/news";
    "https://www.jpmorgan.com/insights";
    "https://newsroom.bankofamerica.com";
    "https://about.bankofamerica.com/en/making-an-impact";
    "https://www.capitalone.com/about/newsroom";
    "https://www.capitalone.com/tech" ].

(** [_parse_websites]; [websites_str] is [os.getenv("WEBSITES", "")], and
    [company_websites] is what importing [simple_database] and asking it for
    its websites gives: a list, or an exception, which the bare [except]
    swallows. *)
Definition _parse_websites (websites_str : string)
  (company_websites : result (list string)) : list string :=
  if negb (String.eqb websites_str "") then
    map strip (List.filter (fun url => negb (String.eqb (strip url) ""))
                           (split_char "," websites_str))
  else
    match company_websites with
    | Ok (w :: ws) => w :: ws
    | Ok [] | Raise _ => default_websites
    end.

(** [_validate_config] *)
Definition _validate_config (websites : list string) : result unit :=
  match websites with
  | [] => Raise ValueError
  | _ :: _ => Ok tt
  end.

End Config.

(** ** [utils.py]: text helpers and the retry wrapper *)

Module Utils.
Import Py.

Definition truncate_text (text : string) (max_length : Z) (suffix : string) : string :=
  if String.eqb text "" || (len text <=? max_length) then text
  else slice_to (max_length - len suffix) text ++ suffix.

Definition mask_sensitive_data (data mask_char : string) : string :=
  if String.eqb data "" || (len data <=? 4) then
    if negb (String.eqb data "") then times mask_char (len data) else ""
  else slice_to 2 data ++ times mask_char (len data - 4) ++ slice_from (-2) data.

(** A Python number: [delay] is annotated [float] and is as often given as
    an [int]; a [float] is an IEEE 754 double. *)
Inductive Number :=
| PyInt (n : Z)
| PyFloat (x : float).

(** [float(2 ** attempt)], exact for [attempt < 1024]. *)
Fixpoint float_pow2 (attempt : nat) : float :=
  match attempt with
  | O => 1%float
  | S attempt' => (2 * float_pow2 attempt')%float
  end.

(** [delay * (2 ** attempt)].  The power is an [int]; an [int] delay gives
    the exact product; a [float] delay has the power converted to a
    [float] first, which raises [OverflowError] from [2 ** 1024] on, and the
    product is the rounded one of the doubles (infinite when too large). *)
Definition wait_time (delay : Number) (attempt : nat) : result Number :=
  match delay with
  | PyInt n => Ok (PyInt (n * 2 ^ Z.of_nat attempt))
  | PyFloat x =>
      if (attempt <? 1024)%nat then Ok (PyFloat (x * float_pow2 attempt)%float)
      else Raise OverflowError
  end.

Section Retry.

Context {A : Type}.

(** [warning attempt e wait_time] is the call of [logger.warning] on the
    message built from the attempt, the exception and the wait; building the
    message can raise (Python refuses to print an [int] of more than 4300
    digits).  [sleep] is [time.sleep], which raises [ValueError] on a
    negative wait or a NaN and [OverflowError] on a wait too long for the
    system's clock. *)
Variable warning : nat -> Exn -> Number -> result unit.
Variable sleep : Number -> result unit.

(** What the [except] block does when an attempt is left: it computes the
    wait, logs, and sleeps; an exception raised there leaves
    [retry_on_failure]. *)
Definition back_off (delay : Number) (attempt : nat) (e : Exn) : result Number :=
  match wait_time delay attempt with
  | Raise e' => Raise e'
  | Ok wait =>
      match warning attempt e wait with
      | Raise e' => Raise e'
      | Ok _ =>
          match sleep wait with
          | Raise e' => Raise e'
          | Ok _ => Ok wait
          end
      end
  end.

(** [retry_on_failure(func, max_retries, delay)].  [func n] is the outcome of
    the [n]-th call of [func], counted from 0; the result comes with the
    list of the waits that [time.sleep] has slept.  [remaining] counts the
    attempts of [range(max_retries)] still to come; when the range is
    exhausted without a [return], the function returns [None]. *)
Fixpoint retry_from (func : nat -> result A) (max_retries : Z) (delay : Number)
  (remaining attempt : nat) : result (option A) * list Number :=
  match remaining with
  | O => (Ok None, [])
  | S remaining' =>
      match func attempt with
      | Ok value => (Ok (Some value), [])
      | Raise e =>
          if Z.of_nat attempt =? max_retries - 1 then (Raise e, [])
          else
            match back_off delay attempt e with
            | Raise e' => (Raise e', [])
            | Ok wait =>
                let '(outcome, waits) :=
                  retry_from func max_retries delay remaining' (S attempt) in
                (outcome, wait :: waits)
            end
      end
  end.

Definition retry_on_failure (func : nat -> result A) (max_retries : Z)
  (delay : Number) : result (option A) * list Number :=
  retry_from func max_retries delay (Z.to_nat max_retries) 0.

End Retry.

End Utils.

(** ** [main.py]: one monitoring run

    The collaborators that are not part of the modelled code are parameters:
    the database (an abstract state with its two operations), what scraping
    each configured website gives, and the publisher.  Logging is left out:
    it does not change what the run collects or how it ends. *)

Module Main.
Import Py AIProcessor.

(** How a call ends: it returns, raises an [Exception], is interrupted
    ([KeyboardInterrupt]) or exits ([SystemExit]); the last two are not
    caught by [except Exception]. *)
Inductive Completion :=
| Returns
| Raises (e : Exn)
| Interrupts
| Exits (status : Z).

(** An article as the scraper yields it, with the summary that the run adds. *)
Record Article := {
  title : string;
  url : string;
  content : string;
  source_url : option string;
  summary : option string
}.

(** The arguments of [db.save_article]. *)
Record SaveCall := {
  arg_title : string;
  arg_url : string;
  arg_content : string;
  arg_summary : option string;
  arg_source_url : string;
  arg_is_genai_related : bool
}.

(** What the constructors inside the [try] of [main] provide. *)
Record Components (DB : Type) := {
  db0 : DB;
  genai_keywords : list string;
  summarizer : option Summarizer
}.
Arguments db0 {DB} _.
Arguments genai_keywords {DB} _.
Arguments summarizer {DB} _.

Record State (DB : Type) := {
  db : DB;
  new_articles : list Article
}.
Arguments db {DB} _.
Arguments new_articles {DB} _.
Arguments Build_State {DB} _ _.

Section Run.

Variable DB : Type.
Variable is_article_seen : DB -> string -> result bool.
Variable save_article : DB -> SaveCall -> DB * result unit.

(** The body of the loop over the articles of a website.  An exception
    leaves the state as it is at that point: a related article is already in
    [new_articles] when saving it fails. *)
Definition process_article (c : Components DB) (article : Article) (st : State DB)
  : State DB * result unit :=
  match is_article_seen (db st) (url article) with
  | Raise e => (st, Raise e)
  | Ok true => (st, Ok tt)
  | Ok false =>
      if is_genai_related (genai_keywords c) (content article) then
        let text :=
          summarize_article (genai_keywords c) (summarizer c) (content article)
                            150 50 in
        let article' :=
          {| title := title article; url := url article;
             content := content article; source_url := source_url article;
             summary := Some text |} in
        let '(db', saved) :=
          save_article (db st)
            {| arg_title := title article; arg_url := url article;
               arg_content := content article; arg_summary := Some text;
               arg_source_url := default "" (source_url article);
               arg_is_genai_related := true |} in
        ({| db := db'; new_articles := new_articles st ++ [article'] |}, saved)
      else
        let '(db', saved) :=
          save_article (db st)
            {| arg_title := title article; arg_url := url article;
               arg_content := content article; arg_summary := None;
               arg_source_url := default "" (source_url article);
               arg_is_genai_related := false |} in
        ({| db := db'; new_articles := new_articles st |}, saved)
  end.

Fixpoint process_articles (c : Components DB) (articles : list Article) (st : State DB)
  : State DB * result unit :=
  match articles with
  | [] => (st, Ok tt)
  | article :: rest =>
      match process_article c article st with
      | (st', Ok _) => process_articles c rest st'
      | (st', Raise e) => (st', Raise e)
      end
  end.

(** One website: [scraped] is what [scraper.scrape_articles] gives for it.
    Any exception, from the scraper or from the loop over its articles, is
    caught, and the run goes on with the next website. *)
Definition process_website (c : Components DB) (scraped : result (list Article))
  (st : State DB) : State DB :=
  match scraped with
  | Raise _ => st
  | Ok articles => fst (process_articles c articles st)
  end.

(** The loop over [config.WEBSITES]; [scraped] lists, in order, what
    scraping each of them gives. *)
Definition monitor (c : Components DB) (scraped : list (result (list Article)))
  : State DB :=
  fold_left (fun st site => process_website c site st) scraped
            {| db := db0 c; new_articles := [] |}.

(** [main()].  [startup] is [load_dotenv(); setup_logging()], which runs
    before the [try]; [components] is the construction of the configuration
    and of the four objects; [publish] is [web_publisher.publish_articles],
    and [get_web_url] is evaluated for the log line when there is something
    to publish. *)
Definition main (startup : result unit) (components : result (Components DB))
  (scraped : list (result (list Article)))
  (publish : list Article -> result unit) (get_web_url : result string)
  : Completion :=
  match startup with
  | Raise e => Raises e
  | Ok _ =>
      match components with
      | Raise _ => Exits 1
      | Ok c =>
          let found := new_articles (monitor c scraped) in
          match found with
          | _ :: _ =>
              match publish found with
              | Raise _ => Exits 1
              | Ok _ => match get_web_url with
                        | Raise _ => Exits 1
                        | Ok _ => Returns
                        end
              end
          | [] =>
              match publish [] with
              | Raise _ => Exits 1
              | Ok _ => Returns
              end
          end
      end
  end.

End Run.

End Main.

(** ** [scheduler.py] and [run_scheduler.py]: the run loop

    [now_text n] is the text of the [n]-th reading of [datetime.now()] and
    [exn_text e] that of an exception, as the log lines show them. *)

Module SchedulerLoop.
Import Py Main ContentScheduler.

Record Scheduler := {
  runtime : Runtime;
  is_running : bool;
  readings : nat
}.

(** A signal that arrives during a [time.sleep]. *)
Inductive Signal :=
| NoSignal
| KeyboardInterrupt
| SystemExit (status : Z).

(** One pass of the loop of [start]: the outcome of [main()] in each job
    that [schedule.run_pending()] finds due, how the rest of the body, the
    library and [time.sleep(60)], ends, and what arrives during the
    [time.sleep(300)] that follows an exception. *)
Record Pass := {
  due : list Completion;
  rest : Completion;
  cooldown : Signal
}.

(** How [start] ends, if it does within the passes given. *)
Inductive Run :=
| Ended (c : Completion)
| Running.

Section Loop.

Variable now_text : nat -> string.
Variable exn_text : Exn -> string.

Definition info (msg : string) (s : Scheduler) : Scheduler :=
  {| runtime := logger INFO msg (runtime s); is_running := is_running s;
     readings := readings s |}.

Definition error (msg : string) (s : Scheduler) : Scheduler :=
  {| runtime := logger ERROR msg (runtime s); is_running := is_running s;
     readings := readings s |}.

Definition tick (s : Scheduler) : Scheduler :=
  {| runtime := runtime s; is_running := is_running s; readings := S (readings s) |}.

(** [run_monitoring]; [outcome] is how the call of [main()] ends. *)
Definition run_monitoring (outcome : Completion) (s : Scheduler)
  : Completion * Scheduler :=
  let s := tick (info ("Starting scheduled monitoring run at "
                       ++ now_text (readings s)) s) in
  match outcome with
  | Returns =>
      (Returns,
       tick (info ("Completed scheduled monitoring run at "
                   ++ now_text (readings s)) s))
  | Raises e =>
      (Returns, error ("Error during scheduled monitoring run: " ++ exn_text e) s)
  | Interrupts => (Interrupts, s)
  | Exits status => (Exits status, s)
  end.

Definition stop (s : Scheduler) : Scheduler :=
  info "Content monitor scheduler stopped"
       {| runtime := runtime s; is_running := false; readings := readings s |}.

(** The jobs of one [schedule.run_pending()], until one of them lets
    something through. *)
Fixpoint run_pending (due : list Completion) (s : Scheduler) : Completion * Scheduler :=
  match due with
  | [] => (Returns, s)
  | outcome :: due' =>
      match run_monitoring outcome s with
      | (Returns, s') => run_pending due' s'
      | (c, s') => (c, s')
      end
  end.

(** The [while self.is_running] loop over the passes given. *)
Fixpoint loop (passes : list Pass) (s : Scheduler) : Run * Scheduler :=
  if negb (is_running s) then (Ended Returns, s)
  else
    match passes with
    | [] => (Running, s)
    | pass :: passes' =>
        let '(c, s) := run_pending (due pass) s in
        let c := match c with Returns => rest pass | _ => c end in
        match c with
        | Returns => loop passes' s
        | Interrupts => loop passes' (stop (info "Scheduler interrupted by user" s))
        | Raises e =>
            let s := error ("Scheduler error: " ++ exn_text e) s in
            match cooldown pass with
            | NoSignal => loop passes' s
            | KeyboardInterrupt => (Ended Interrupts, s)
            | SystemExit status => (Ended (Exits status), s)
            end
        | Exits status => (Ended (Exits status), s)
        end
    end.

(** [start]; [first] is how [main()] ends in the run made at once. *)
Definition start (first : Completion) (passes : list Pass) (s : Scheduler)
  : Run * Scheduler :=
  let s := {| runtime := runtime s; is_running := true; readings := readings s |} in
  let s := info "Content monitor scheduler started" s in
  let s := info "Running initial monitoring check..." s in
  match run_monitoring first s with
  | (Returns, s) => loop passes s
  | (c, s) => (Ended c, s)
  end.

(** The exit status of [run_scheduler.py] once the scheduler is set up:
    [scheduler.start()] sits in a [try] that catches [KeyboardInterrupt]
    (then [main] returns, status 0) and [Exception] (status 1); a
    [SystemExit] passes through with its own status.  [None] when the
    scheduler is still running after the passes given. *)
Definition exit_status (run : Run) : option Z :=
  match run with
  | Running => None
  | Ended Returns | Ended Interrupts => Some 0
  | Ended (Raises _) => Some 1
  | Ended (Exits status) => Some status
  end.

End Loop.

End SchedulerLoop.

(** ** Sample data *)

Module Samples.
Import Py.

(** A text of 1001 words with the keyword "gpt" inside its first word. *)
Definition sparse_text : string :=
  "xgptx" ++ String.concat "" (replicate 1000 " a").

(** A model that is always unavailable. *)
Definition failing_model : AIProcessor.Summarizer :=
  fun _ _ _ => Raise RuntimeError.

(** A clock that reads 2025-06-01T12:00:00 first and one second more at each
    later reading. *)
Definition clock (n : nat) : Z := 63884376000000000 + Z.of_nat n * 1000000.

(** Stand-ins for the two conversions of the [datetime] library: they give
    the library's answers on the dates that the examples use, which are the
    first four readings of [clock] and the strings listed here, and are not
    meant for other arguments. *)
Definition isoformat (t : Z) : string :=
  if t =? 63884376000000000 then "2025-06-01T12:00:00"
  else if t =? 63884376001000000 then "2025-06-01T12:00:01"
  else if t =? 63884376002000000 then "2025-06-01T12:00:02"
  else if t =? 63884376003000000 then "2025-06-01T12:00:03"
  else "2025-06-01T12:00:04".

Definition fromisoformat (s : string) : ArticleStorage.Parsed :=
  if String.eqb s "2024-01-01T00:00:00" then ArticleStorage.Naive 63839664000000000
  else if String.eqb s "2025-05-01T08:30:00" then ArticleStorage.Naive 63881685000000000
  else if String.eqb s "2025-06-01T12:00:00" then ArticleStorage.Naive 63884376000000000
  else if String.eqb s "2025-06-01T12:00:00+00:00"
       then ArticleStorage.Aware 63884376000000000
  else ArticleStorage.Invalid.

Definition write_ok (n : nat) : bool := true.

Definition entry (first_seen : string) (count : Z) : ArticleStorage.SeenArticle :=
  {| ArticleStorage.title := Some "Bank launches assistant";
     ArticleStorage.first_seen := Some first_seen;
     ArticleStorage.seen_count := Some count |}.

Definition storage_of (arts : gmap string ArticleStorage.SeenArticle)
  : ArticleStorage.Storage :=
  {| ArticleStorage.seen_articles :=
       {| ArticleStorage.created_at := Some "2024-01-01T00:00:00";
          ArticleStorage.last_updated := Some "2025-05-01T08:30:00";
          ArticleStorage.articles := Some arts |};
     ArticleStorage.file := ArticleStorage.Absent;
     ArticleStorage.ticks := 0 |}.

(** A ledger without entries, one with an article first seen on 2024-01-01,
    and one with an unusable date. *)
Definition empty_storage : ArticleStorage.Storage := storage_of ∅.
Definition old_storage : ArticleStorage.Storage :=
  storage_of {[ "https://bank.example/a" := entry "2024-01-01T00:00:00" 1 ]}.
Definition mixed_storage : ArticleStorage.Storage :=
  storage_of (<[ "https://bank.example/a" := entry "2024-01-01T00:00:00" 1 ]>
              (<[ "https://bank.example/b" := entry "not-a-date" 1 ]>
              (<[ "https://bank.example/c" := entry "2025-05-01T08:30:00" 3 ]>
              (<[ "https://bank.example/d" := entry "2025-06-01T12:00:00+00:00" 1 ]>
               ∅)))).

(** A database that is the list of the URLs saved so far. *)
Definition seen_in (db : list string) (url : string) : result bool :=
  Ok (bool_decide (url ∈ db)).

Definition save_in (db : list string) (call : Main.SaveCall) : list string * result unit :=
  (Main.arg_url call :: db, Ok tt).

Definition components : Main.Components (list string) :=
  {| Main.db0 := ["https://bank.example/old"];
     Main.genai_keywords := AIProcessor.default_keywords;
     Main.summarizer := None |}.

Definition article (url content : string) : Main.Article :=
  {| Main.title := "Bank launches assistant";
     Main.url := url;
     Main.content := content;
     Main.source_url := Some "https://bank.example/news";
     Main.summary := None |}.

(** Two websites: the first cannot be scraped; the second yields an article
    that is known, one that is new and related, and one that is new and not
    related. *)
Definition scraped : list (result (list Main.Article)) :=
  [ Raise OSError;
    Ok [ article "https://bank.example/old" "We use ChatGPT";
         article "https://bank.example/new" "We use ChatGPT for LLM work";
         article "https://bank.example/dull" "Quarterly results" ] ].

(** A logger that prints every message, and a [time.sleep] on a clock that
    does not wait; like [time.sleep] it refuses a negative wait. *)
Definition warning (attempt : nat) (e : Exn) (wait : Utils.Number) : result unit :=
  Ok tt.

Definition sleep (wait : Utils.Number) : result unit :=
  match wait with
  | Utils.PyInt n => if n <? 0 then Raise ValueError else Ok tt
  | Utils.PyFloat x => if (x <? 0)%float then Raise ValueError else Ok tt
  end.

End Samples.

(** * Properties *)

(** ** Classifier *)

Section Classifier.
Import Py Re AIProcessor Samples.

Lemma count_if_from {A} (test : A -> bool) (items : list A) (n : Z) :
  fold_left (fun n x => if test x then n + 1 else n) items n
  = n + Z.of_nat (length (List.filter test items)).
Proof.
  revert n. induction items as [|x items IH]; intros n; simpl.
  - lia.
  - rewrite IH. destruct (test x); simpl; lia.
Qed.

Lemma count_if_filter {A} (test : A -> bool) (items : list A) :
  count_if test items = Z.of_nat (length (List.filter test items)).
Proof. unfold count_if. rewrite count_if_from. lia. Qed.

(** Distinct items that pass the test are all counted. *)
Lemma count_if_distinct {A} (test : A -> bool) (items found : list A) :
  NoDup found -> found ⊆ items -> (forall x, x ∈ found -> test x = true) ->
  Z.of_nat (length found) <= count_if test items.
Proof.
  intros Hnd Hsub Htest. rewrite count_if_filter.
  apply inj_le, NoDup_incl_length.
  - by apply NoDup_ListNoDup.
  - intros x Hx. apply filter_In. apply list_elem_of_In in Hx. split.
    + apply list_elem_of_In. by apply Hsub.
    + by apply Htest.
Qed.

Lemma contains_empty_text (k : string) : contains k "" = true -> k = "".
Proof. destruct k; simpl; [done | discriminate]. Qed.

Lemma pattern_matches_empty : pattern_matches "" = 0.
Proof. reflexivity. Qed.

Lemma eqb_empty_false (content : string) :
  content <> "" -> String.eqb content "" = false.
Proof. intros H. by apply String.eqb_neq. Qed.

(** Three distinct keywords cannot all occur in the empty text. *)
Lemma distinct_keywords_nonempty (content : string) (found : list string) :
  NoDup found -> (3 <= length found)%nat ->
  (forall k, k ∈ found -> contains k (lower content) = true) ->
  content <> "".
Proof.
  intros Hnd Hlen Hin ->.
  destruct found as [|a [|b found]]; simpl in Hlen; try lia.
  assert (a = "") as -> by (apply contains_empty_text, Hin; set_solver).
  assert (b = "") as -> by (apply contains_empty_text, Hin; set_solver).
  apply NoDup_cons in Hnd as [Hnotin _]. set_solver.
Qed.

(** The first rule of the decision, on a text that is not empty. *)
Lemma high_confidence_rule (genai_keywords : list string) (content : string) :
  content <> "" ->
  3 <= keyword_matches genai_keywords content \/ 2 <= pattern_matches content ->
  is_genai_related genai_keywords content = true.
Proof.
  intros Hne Hrule. unfold is_genai_related.
  rewrite (eqb_empty_false _ Hne).
  destruct Hrule as [H|H].
  - apply Z.leb_le in H. by rewrite H.
  - apply Z.leb_le in H. rewrite H. by rewrite orb_true_r.
Qed.

(** C2: a text in which at least three distinct configured keywords occur
    (in its lower-cased form), or in which at least two of the fixed patterns
    match, is classified as related, whatever the other counts are. *)
Theorem high_confidence_is_related (genai_keywords : list string) (content : string) :
  (exists found : list string,
      NoDup found /\ found ⊆ genai_keywords /\ (3 <= length found)%nat /\
      forall k, k ∈ found -> contains k (lower content) = true)
  \/ 2 <= pattern_matches content ->
  is_genai_related genai_keywords content = true.
Proof.
  intros [(found & Hnd & Hsub & Hlen & Hin)|Hpat].
  - apply high_confidence_rule.
    + by eapply distinct_keywords_nonempty.
    + left. etrans; [|by apply count_if_distinct]. lia.
  - apply high_confidence_rule; [|by right].
    intros ->. rewrite pattern_matches_empty in Hpat. lia.
Qed.

Lemma high_confidence_is_related_witness :
  is_genai_related default_keywords
    "Our bank pilots Generative AI: GPT and ChatGPT assistants" = true.
Proof.
  apply high_confidence_is_related. left.
  exists ["generative ai"; "gpt"; "chatgpt"].
  split; [by apply (bool_decide_unpack _)|].
  split; [by apply (bool_decide_unpack _)|].
  split; [simpl; lia|].
  intros k Hk.
  repeat (apply elem_of_cons in Hk as [->|Hk]; [reflexivity|]).
  by apply elem_of_nil in Hk.
Defined.

(** C6: one keyword, a density of at most 0.001, no pattern and fewer than
    three context indicators: the text is not related. *)
Theorem single_sparse_keyword_not_related (genai_keywords : list string)
  (content : string) :
  keyword_matches genai_keywords content = 1 ->
  (keyword_density genai_keywords content <= 1 # 1000)%Q ->
  pattern_matches content = 0 ->
  context_matches content < 3 ->
  is_genai_related genai_keywords content = false.
Proof.
  intros Hkw Hdens Hpat Hctx. unfold is_genai_related, Qgtb.
  rewrite Hkw, Hpat.
  apply Qle_bool_iff in Hdens. rewrite Hdens.
  apply Z.leb_gt in Hctx. rewrite Hctx.
  by destruct (String.eqb content "").
Qed.

Lemma single_sparse_keyword_not_related_witness :
  is_genai_related default_keywords sparse_text = false.
Proof.
  apply single_sparse_keyword_not_related.
  - vm_compute. reflexivity.
  - apply Qle_bool_iff. vm_compute. reflexivity.
  - vm_compute. reflexivity.
  - vm_compute. reflexivity.
Defined.

(** Without words the density is 0: the guard [if word_count > 0 else 0]
    decides, and the quotient by [max(word_count, 1)] is not taken. *)
Lemma no_words_no_density (genai_keywords : list string) (content : string) :
  word_count content = 0 -> keyword_density genai_keywords content = 0%Q.
Proof. intros Hwc. unfold keyword_density. by rewrite Hwc. Qed.

(** The guard is seen only with a keyword made of whitespace, which
    [Config._parse_keywords] never returns: in the text of one space such a
    keyword matches, and the density is 0 all the same. *)
Example whitespace_keyword_density :
  word_count " " = 0 /\ keyword_matches [" "] " " = 1 /\
  keyword_density [" "] " " = 0%Q.
Proof. by repeat split. Qed.

(** Keywords as [Config._parse_keywords] leaves them never occur in a text
    without words. *)
Lemma split_ws_aux_some (w s : string) : split_ws_aux (Some w) s <> [].
Proof.
  revert w. induction s as [|c s IH]; intros w; simpl; [done|].
  destruct (isspace c); [done | apply IH].
Qed.

Lemma no_words_all_space (content : string) :
  word_count content = 0 ->
  match content with String c _ => isspace c = true | EmptyString => True end
  /\ match content with String _ rest => word_count rest = 0 | EmptyString => True end.
Proof.
  unfold word_count, split_ws. destruct content as [|c rest]; [done|]. simpl.
  destruct (isspace c); [done|].
  intros H. exfalso. eapply split_ws_aux_some.
  apply length_zero_iff_nil. apply Nat2Z.inj. exact H.
Qed.

Lemma lower_char_space (c : ascii) : isspace c = true -> lower_char c = c.
Proof.
  destruct c as [[] [] [] [] [] [] [] []]; vm_compute; intros H;
    (reflexivity || discriminate H).
Qed.

Lemma stripped_never_in_blank (keyword content : string) :
  stripped keyword = true -> word_count content = 0 ->
  contains keyword (lower content) = false.
Proof.
  intros Hk. induction content as [|c rest IH]; intros Hwc.
  - by destruct keyword.
  - destruct (no_words_all_space _ Hwc) as [Hc Hrest].
    simpl. rewrite (IH Hrest), orb_false_r.
    destruct keyword as [|k keyword]; [done|]. simpl in *.
    rewrite (lower_char_space _ Hc).
    destruct (Ascii.eqb_spec k c) as [->|]; [|done].
    by rewrite Hc in Hk.
Qed.

Lemma stripped_keywords_density (genai_keywords : list string) (content : string) :
  forallb stripped genai_keywords = true -> word_count content = 0 ->
  keyword_matches genai_keywords content = 0.
Proof.
  intros Hall Hwc. unfold keyword_matches. rewrite count_if_filter.
  replace (List.filter _ genai_keywords) with (@nil string); [done|].
  symmetry. induction genai_keywords as [|k ks IH]; [done|].
  simpl in *. apply andb_true_iff in Hall as [Hk Hks].
  by rewrite (stripped_never_in_blank _ _ Hk Hwc), IH.
Qed.

Lemma default_keywords_stripped : forallb stripped default_keywords = true.
Proof. reflexivity. Qed.

(** The patterns on a few texts: a version number after "gpt", with or
    without a hyphen; no match inside a longer word; a plural "llms"; several
    blanks between "generative" and "ai". *)
Example patterns_on_samples :
  map (fun text => pattern_matches text)
      ["GPT-4 is out"; "gpt4"; "gpt"; "xgpt4"; "two LLMs"; "Generative   AI";
       "machine learning with a transformer"; ""]
  = [1; 1; 0; 0; 1; 1; 2; 0].
Proof. reflexivity. Qed.

Example classifier_on_samples :
  map (is_genai_related default_keywords)
      ["We use ChatGPT"; "Quarterly results"; "Generative   AI"; "   "; ""]
  = [true; false; false; false; false].
Proof. reflexivity. Qed.

End Classifier.


(** ** Summarizer *)

Section Summarizer.
Import Py Re AIProcessor Samples.

(** Sentences of equal score keep their order. *)
Example sort_desc_stable :
  sort_desc [(1 # 2, "a"); (2, "b"); (1 # 2, "c"); (2, "d"); (0, "e")]%Q
  = [(2, "b"); (2, "d"); (1 # 2, "a"); (1 # 2, "c"); (0, "e")]%Q.
Proof. reflexivity. Qed.

(** Without a loaded model there is no summary at all. *)
Lemma summarize_without_model (genai_keywords : list string) (content : string)
  (max_length min_length : Z) :
  summarize_article genai_keywords None content max_length min_length
  = "Summary not available".
Proof. reflexivity. Qed.

(** A model that answers: its text is trimmed and given a final period. *)
Example summarize_with_model :
  summarize_article default_keywords (Some (fun _ _ _ => Ok "  Banks adopt GPT "))
    "Banks adopt GPT. Regulators watch." 150 50
  = "Banks adopt GPT.".
Proof. reflexivity. Qed.

Lemma app_cons (c : ascii) (s t : string) : String c s ++ t = String c (s ++ t).
Proof. reflexivity. Qed.

Lemma app_assoc_string (s t u : string) : (s ++ t) ++ u = s ++ (t ++ u).
Proof. induction s as [|c s IH]; [done|]. rewrite !app_cons. by f_equal. Qed.

Lemma endswith_refl (p : string) : endswith p p = true.
Proof. destruct p; simpl; [done|]. by rewrite Ascii.eqb_refl, String.eqb_refl. Qed.

Lemma endswith_app (p s : string) : endswith p (s ++ p) = true.
Proof.
  induction s as [|c s IH]; simpl.
  - apply endswith_refl.
  - rewrite IH. apply orb_true_r.
Qed.

Lemma endswith_dot_ellipsis (s : string) : endswith "." (s ++ "...") = true.
Proof.
  assert (s ++ "..." = (s ++ "..") ++ ".") as ->.
  { by rewrite app_assoc_string. }
  apply endswith_app.
Qed.

Lemma app_nonempty_r (s t : string) : t <> "" -> s ++ t <> "".
Proof. destruct s; simpl; [done | discriminate]. Qed.

Lemma join_two_nonempty (sep a b : string) (rest : list string) :
  sep <> "" -> join sep (a :: b :: rest) <> "".
Proof.
  intros Hsep. change (join sep (a :: b :: rest)) with (a ++ sep ++ join sep (b :: rest)).
  apply app_nonempty_r. destruct sep; [done | discriminate].
Qed.

Lemma firstn_two {A} (n : nat) (l : list A) :
  (2 <= n)%nat -> (2 <= length l)%nat ->
  exists a b rest, firstn n l = a :: b :: rest.
Proof.
  intros Hn Hl.
  destruct n as [|[|n]]; try lia.
  destruct l as [|a [|b l]]; simpl in Hl; try lia.
  by exists a, b, (firstn n l).
Qed.

(** The capped input of a text that is not empty is not empty. *)
Lemma cap_input_nonempty (content : string) : content <> "" -> cap_input content <> "".
Proof.
  intros Hne. unfold cap_input.
  destruct (_ <? _)%nat eqn:E; [|done].
  apply Nat.ltb_lt in E.
  destruct (firstn_two 1024 (split_ws content)) as (a & b & rest & ->); [lia..|].
  by apply join_two_nonempty.
Qed.

(** The fallback on more than two sentences ends with a period. *)
Lemma extractive_many_sentences (genai_keywords : list string) (content : string)
  (max_length : Z) :
  (2 < length (split_dot_space content))%nat ->
  let summary := _generate_extractive_summary genai_keywords content max_length in
  summary <> "" /\ endswith "." summary = true.
Proof.
  intros Hlen. unfold _generate_extractive_summary.
  apply Nat.leb_gt in Hlen. rewrite Hlen.
  set (joined := join ". " _).
  destruct (String.eqb_spec joined "") as [->|Hj]; simpl.
  - split; [by apply app_nonempty_r | apply endswith_dot_ellipsis].
  - destruct (endswith "." joined) eqn:E; simpl.
    + rewrite (eqb_empty_false _ Hj). simpl. eauto.
    + assert (joined ++ "." <> "") as Hd by by apply app_nonempty_r.
      rewrite (eqb_empty_false _ Hd). simpl. split; [done | apply endswith_app].
Qed.

(** The fallback on at most two sentences: the text itself when it fits, its
    first characters and an ellipsis otherwise. *)
Lemma extractive_few_sentences (genai_keywords : list string) (content : string)
  (max_length : Z) :
  (length (split_dot_space content) <= 2)%nat ->
  _generate_extractive_summary genai_keywords content max_length
  = if max_length <? len content then slice_to max_length content ++ "..."
    else content.
Proof.
  intros Hlen. unfold _generate_extractive_summary.
  apply Nat.leb_le in Hlen. by rewrite Hlen.
Qed.

(** C5, as the code has it: when the model raises, the summary of a text that
    is not empty is not empty; it ends with a period (alone, or as the end of
    an ellipsis) when the text sent to the model has more than two sentences
    or more than [max_length] characters; a shorter text of at most two
    sentences is returned as it is. *)
Theorem fallback_summary_shape (genai_keywords : list string) (model : Summarizer)
  (content : string) (max_length min_length : Z) :
  content <> "" ->
  (forall text a b, exists e, model text a b = Raise e) ->
  let text := cap_input content in
  let summary :=
    summarize_article genai_keywords (Some model) content max_length min_length in
  summary <> "" /\
  ((2 < length (split_dot_space text))%nat \/ max_length < len text ->
   endswith "." summary = true) /\
  ((length (split_dot_space text) <= 2)%nat -> len text <= max_length ->
   summary = text).
Proof.
  intros Hne Hfail text summary. subst summary. unfold summarize_article.
  rewrite (eqb_empty_false _ Hne). fold text.
  destruct (Hfail text max_length min_length) as [e ->].
  assert (text <> "") as Htext by by apply cap_input_nonempty.
  destruct (le_lt_dec (length (split_dot_space text)) 2) as [Hfew|Hmany].
  - rewrite extractive_few_sentences by done.
    destruct (max_length <? len text) eqn:E.
    + apply Z.ltb_lt in E. split; [by apply app_nonempty_r|].
      split; [intros _; apply endswith_dot_ellipsis | lia].
    + apply Z.ltb_ge in E. split; [done|]. split; [|done].
      intros [?|?]; lia.
  - destruct (extractive_many_sentences genai_keywords text max_length Hmany)
      as [Hn Hdot].
    split; [done|]. split; [done|]. lia.
Qed.

Lemma fallback_summary_shape_witness :
  let text := cap_input "Banks adopt GPT. Regulators watch. Costs fall. Staff retrain" in
  let summary :=
    summarize_article default_keywords (Some failing_model)
      "Banks adopt GPT. Regulators watch. Costs fall. Staff retrain" 150 50 in
  summary <> "" /\
  ((2 < length (split_dot_space text))%nat \/ 150 < len text ->
   endswith "." summary = true) /\
  ((length (split_dot_space text) <= 2)%nat -> len text <= 150 ->
   summary = text).
Proof.
  apply fallback_summary_shape.
  - discriminate.
  - intros. by exists RuntimeError.
Defined.

(** C5, as stated, fails on a short text without a final period: the
    fallback returns it unchanged. *)
Lemma fallback_summary_counterexample :
  "hello" <> "" /\
  summarize_article default_keywords (Some failing_model) "hello" 150 50 = "hello" /\
  endswith "." "hello" = false /\ endswith "..." "hello" = false.
Proof. repeat split; discriminate || reflexivity. Qed.

(** What the selection loop does bound: the lengths of the chosen sentences,
    without the separators and the period added afterwards. *)
Lemma select_parts_total (max_length current_length : Z) (scored : list (Q * string)) :
  current_length <= max_length ->
  current_length + foldr (fun part n => len part + n) 0
                         (select_parts max_length current_length scored)
  <= max_length.
Proof.
  revert current_length.
  induction scored as [|[score sentence] rest IH]; intros cur Hcur; simpl; [lia|].
  destruct (max_length <? cur + len sentence) eqn:E; simpl; [lia|].
  apply Z.ltb_ge in E. specialize (IH _ E). lia.
Qed.

(** C4 fails on three short sentences and [max_length = 10]: all three are
    chosen, their lengths add up to 10, and the summary with its separators
    and period has 15 characters, more than 10 + 3. *)
Theorem extractive_summary_exceeds_bound :
  _generate_extractive_summary default_keywords "aaaa. bbbb. cc" 10
  = "aaaa. bbbb. cc." /\
  10 + 3 < len (_generate_extractive_summary default_keywords "aaaa. bbbb. cc" 10).
Proof. split; reflexivity. Qed.

End Summarizer.

(** ** Ledger *)

Section Ledger.
Import Py ArticleStorage.

Variable clock : nat -> Z.
Variable isoformat : Z -> string.
Variable fromisoformat : string -> Parsed.
Variable write_ok : nat -> bool.

Abbreviation mark := (mark_article_seen clock isoformat write_ok).
Abbreviation cleanup :=
  (cleanup_old_articles clock isoformat fromisoformat write_ok).

Lemma is_article_seen_false (url : string) (st : Storage) :
  is_article_seen url st = false <-> get_seen_articles st !! url = None.
Proof.
  unfold is_article_seen. rewrite bool_decide_eq_false, <-eq_None_not_Some. done.
Qed.

Lemma is_article_seen_true (url : string) (st : Storage) :
  is_article_seen url st = true <-> is_Some (get_seen_articles st !! url).
Proof. unfold is_article_seen. by rewrite bool_decide_eq_true. Qed.

(** The ledger after [mark_article_seen]: one entry is written, whole. *)
Lemma get_seen_articles_mark (url : string) (title : option string) (st : Storage) :
  get_seen_articles (mark url title st)
  = <[url :=
        {| title := title;
           first_seen := Some (isoformat (clock (ticks st)));
           seen_count :=
             Some (default 0 (get_seen_articles st !! url ≫= seen_count) + 1) |}]>
      (get_seen_articles st).
Proof. reflexivity. Qed.

Lemma mark_other_url (url url' : string) (title : option string) (st : Storage) :
  url <> url' ->
  get_seen_articles (mark url title st) !! url' = get_seen_articles st !! url'.
Proof. intros Hne. rewrite get_seen_articles_mark. by apply lookup_insert_ne. Qed.

(** C1: on a ledger that does not hold the URL, the first [mark_article_seen]
    stores a count of 1 and the second makes it 2; after each of them
    [is_article_seen] answers true. *)
Theorem mark_seen_twice (url : string) (title1 title2 : option string) (st : Storage) :
  is_article_seen url st = false ->
  let st1 := mark url title1 st in
  let st2 := mark url title2 st1 in
  get_seen_articles st1 !! url ≫= seen_count = Some 1 /\
  is_article_seen url st1 = true /\
  get_seen_articles st2 !! url ≫= seen_count = Some 2 /\
  is_article_seen url st2 = true.
Proof.
  intros Hnew%is_article_seen_false st1 st2.
  assert (get_seen_articles st1 !! url ≫= seen_count = Some 1) as H1.
  { subst st1. by rewrite get_seen_articles_mark, lookup_insert_eq, Hnew. }
  split; [done|]. split.
  { apply is_article_seen_true. subst st1.
    rewrite get_seen_articles_mark, lookup_insert_eq. eauto. }
  subst st2. rewrite is_article_seen_true, get_seen_articles_mark, lookup_insert_eq.
  rewrite H1. simpl. eauto.
Qed.

(** A repeat sighting writes the whole entry again: the count goes up by one,
    and the title and the first-seen date are those of this call. *)
Lemma mark_seen_again (url : string) (title : option string) (st : Storage)
  (old : SeenArticle) :
  get_seen_articles st !! url = Some old ->
  get_seen_articles (mark url title st) !! url
  = Some {| title := title;
            first_seen := Some (isoformat (clock (ticks st)));
            seen_count := Some (default 0 (seen_count old) + 1) |}.
Proof. intros H. by rewrite get_seen_articles_mark, lookup_insert_eq, H. Qed.

(** *** Cleanup *)

Lemma is_old_spec (cutoff : Z) (article_data : SeenArticle) :
  is_old fromisoformat cutoff article_data = true <->
  let parsed := fromisoformat (default "" (first_seen article_data)) in
  parsed = Invalid \/ (exists t, parsed = Aware t) \/
  (exists t, parsed = Naive t /\ t < cutoff).
Proof.
  unfold is_old. simpl. destruct (fromisoformat _) as [|t|t].
  - split; [by left | done].
  - rewrite Z.ltb_lt. split.
    + intros H. right. right. by exists t.
    + intros [H|[[t' H]|(t' & H & Hlt)]]; [done..|]. by injection H as ->.
  - split; [|done]. intros _. right. left. by exists t.
Qed.

Lemma elem_of_urls_to_remove (cutoff : Z) (arts : gmap string SeenArticle)
  (url : string) :
  url ∈ urls_to_remove fromisoformat cutoff arts <->
  exists article_data,
    arts !! url = Some article_data /\ is_old fromisoformat cutoff article_data = true.
Proof.
  unfold urls_to_remove. rewrite list_elem_of_fmap. split.
  - intros [[u a] [-> H]]. apply list_elem_of_In, filter_In in H as [H Hold].
    apply list_elem_of_In, elem_of_map_to_list in H. eauto.
  - intros (a & Hlook & Hold). exists (url, a). split; [done|].
    apply list_elem_of_In, filter_In. split; [|done].
    by apply list_elem_of_In, elem_of_map_to_list.
Qed.

Lemma lookup_after_removal (cutoff : Z) (arts : gmap string SeenArticle)
  (url : string) :
  foldr delete arts (urls_to_remove fromisoformat cutoff arts) !! url
  = match arts !! url with
    | Some article_data =>
        if is_old fromisoformat cutoff article_data then None else Some article_data
    | None => None
    end.
Proof.
  destruct (arts !! url) as [a|] eqn:Hlook.
  - destruct (is_old fromisoformat cutoff a) eqn:Hold.
    + apply lookup_foldr_delete, elem_of_urls_to_remove. eauto.
    + rewrite lookup_foldr_delete_not_elem_of; [done|].
      rewrite elem_of_urls_to_remove. intros (a' & ? & ?). congruence.
  - apply eq_None_not_Some. intros [a Ha].
    apply lookup_foldr_delete_Some in Ha as [_ Ha]. congruence.
Qed.

(** The ledger after a cleanup whose cutoff could be computed. *)
Lemma cleanup_lookup (days_old cutoff : Z) (st : Storage) (url : string) :
  cutoff_date clock days_old (ticks st) = Ok cutoff ->
  get_seen_articles (cleanup days_old st) !! url
  = match get_seen_articles st !! url with
    | Some article_data =>
        if is_old fromisoformat cutoff article_data then None else Some article_data
    | None => None
    end.
Proof.
  intros Hcut. rewrite <-lookup_after_removal.
  unfold cleanup_old_articles. rewrite Hcut. simpl.
  change (get_seen_articles {| seen_articles := seen_articles st; file := file st;
                               ticks := S (ticks st) |})
    with (get_seen_articles st).
  by destruct (urls_to_remove fromisoformat cutoff (get_seen_articles st)).
Qed.

(** With [days_old = 0] the cutoff is the present: every entry first seen in
    the past goes. *)
Lemma cleanup_zero_days (st : Storage) (url : string) (article_data : SeenArticle)
  (t : Z) :
  datetime_min <= clock (ticks st) <= datetime_max ->
  get_seen_articles st !! url = Some article_data ->
  fromisoformat (default "" (first_seen article_data)) = Naive t ->
  t < clock (ticks st) ->
  is_article_seen url (cleanup 0 st) = false.
Proof.
  intros Hrange Hlook Hparse Hpast.
  assert (cutoff_date clock 0 (ticks st) = Ok (clock (ticks st))) as Hcut.
  { unfold cutoff_date, timedelta_days.
    change (Z.abs 0 <=? 999999999) with true. cbn [bind].
    unfold datetime_sub. change (0 * us_per_day) with 0. rewrite Z.sub_0_r.
    destruct Hrange as [Hlo%Z.leb_le Hhi%Z.leb_le]. by rewrite Hlo, Hhi. }
  apply is_article_seen_false. rewrite (cleanup_lookup _ _ _ _ Hcut), Hlook.
  unfold is_old. rewrite Hparse. by apply Z.ltb_lt in Hpast as ->.
Qed.

(** With [days_old = 10000] an entry whose date is within the last 10000 days
    stays. *)
Lemma cleanup_10000_days (st : Storage) (url : string) (article_data : SeenArticle)
  (t : Z) :
  datetime_min + 10000 * us_per_day <= clock (ticks st) <= datetime_max ->
  get_seen_articles st !! url = Some article_data ->
  fromisoformat (default "" (first_seen article_data)) = Naive t ->
  clock (ticks st) - 10000 * us_per_day <= t ->
  get_seen_articles (cleanup 10000 st) !! url = Some article_data.
Proof.
  intros Hrange Hlook Hparse Hrecent.
  assert (cutoff_date clock 10000 (ticks st)
          = Ok (clock (ticks st) - 10000 * us_per_day)) as Hcut.
  { unfold cutoff_date, timedelta_days.
    change (Z.abs 10000 <=? 999999999) with true. cbn [bind].
    unfold datetime_sub.
    destruct Hrange as [Hlo Hhi].
    assert ((datetime_min <=? clock (ticks st) - 10000 * us_per_day) = true) as ->
      by (apply Z.leb_le; lia).
    assert ((clock (ticks st) - 10000 * us_per_day <=? datetime_max) = true) as ->
      by (apply Z.leb_le; unfold us_per_day; lia).
    reflexivity. }
  rewrite (cleanup_lookup _ _ _ _ Hcut), Hlook.
  unfold is_old. rewrite Hparse. by apply Z.ltb_ge in Hrecent as ->.
Qed.

(** C7, as the code has it: when the cutoff [now - days_old] is a date that
    [datetime] can hold, cleanup removes exactly the entries that [is_old]
    picks, those whose first-seen date does not parse, carries a UTC offset,
    or is before the cutoff, and keeps the others as they are; when the
    cutoff overflows, nothing is removed at all.  In particular, on a clock
    that reads a valid date, [days_old = 0] removes every entry first seen in
    the past, and [days_old = 10000] keeps every entry first seen within the
    last 10000 days. *)
Theorem cleanup_old_articles_removes (days_old : Z) (st : Storage) :
  match cutoff_date clock days_old (ticks st) with
  | Ok cutoff =>
      forall url,
        get_seen_articles (cleanup days_old st) !! url
        = match get_seen_articles st !! url with
          | Some article_data =>
              if is_old fromisoformat cutoff article_data then None
              else Some article_data
          | None => None
          end
  | Raise _ => get_seen_articles (cleanup days_old st) = get_seen_articles st
  end /\
  (datetime_min <= clock (ticks st) <= datetime_max ->
   forall url article_data t,
     get_seen_articles st !! url = Some article_data ->
     fromisoformat (default "" (first_seen article_data)) = Naive t ->
     t < clock (ticks st) ->
     is_article_seen url (cleanup 0 st) = false) /\
  (datetime_min + 10000 * us_per_day <= clock (ticks st) <= datetime_max ->
   forall url article_data t,
     get_seen_articles st !! url = Some article_data ->
     fromisoformat (default "" (first_seen article_data)) = Naive t ->
     clock (ticks st) - 10000 * us_per_day <= t ->
     get_seen_articles (cleanup 10000 st) !! url = Some article_data).
Proof.
  split; [|split].
  - destruct (cutoff_date clock days_old (ticks st)) as [cutoff|e] eqn:Hcut.
    + intros url. by apply cleanup_lookup.
    + unfold cleanup_old_articles. by rewrite Hcut.
  - intros Hrange url article_data t. by apply cleanup_zero_days.
  - intros Hrange url article_data t. by apply cleanup_10000_days.
Qed.

(** *** Loading *)

(** C10: loading returns a ledger in every case (the result type has no
    exception); when the file is absent, cannot be read or parsed, or holds
    no JSON object, the ledger is the empty one with two fresh timestamps, and
    no URL is seen in it. *)
Theorem load_resets_on_failure (f : File) (n : nat) :
  (forall data, f <> Object data) ->
  _load_seen_articles clock isoformat f n
  = ({| created_at := Some (isoformat (clock n));
        last_updated := Some (isoformat (clock (S n)));
        articles := Some ∅ |}, S (S n)) /\
  forall url, is_article_seen url (init clock isoformat f n) = false.
Proof.
  intros Hf.
  assert (_load_seen_articles clock isoformat f n
          = (new_ledger clock isoformat n, S (S n))) as Hload.
  { destruct f; try reflexivity. by destruct (Hf data). }
  split; [done|]. intros url. unfold init. rewrite Hload. reflexivity.
Qed.

(** A readable ledger file is taken as it is. *)
Lemma load_object (data : Ledger) (n : nat) :
  _load_seen_articles clock isoformat (Object data) n = (data, n).
Proof. reflexivity. Qed.

End Ledger.

(** *** The ledger on the sample data *)

Section LedgerSamples.
Import Py ArticleStorage.

Abbreviation sample_mark :=
  (mark_article_seen Samples.clock Samples.isoformat Samples.write_ok).
Abbreviation sample_cleanup :=
  (cleanup_old_articles Samples.clock Samples.isoformat Samples.fromisoformat
     Samples.write_ok).

Lemma mark_seen_twice_witness :
  let url := "https://bank.example/a" in
  let st1 := sample_mark url (Some "Bank launches assistant") Samples.empty_storage in
  let st2 := sample_mark url None st1 in
  get_seen_articles st1 !! url ≫= seen_count = Some 1 /\
  is_article_seen url st1 = true /\
  get_seen_articles st2 !! url ≫= seen_count = Some 2 /\
  is_article_seen url st2 = true.
Proof. apply mark_seen_twice. reflexivity. Defined.

(** C3 fails on the code: the article was first seen on 2024-01-01; a second
    sighting on 2025-06-01 rewrites the entry, so that its first-seen date
    becomes 2025-06-01T12:00:00 and its title that of the second call.  A
    cleanup of entries older than 30 days, which removes the entry before
    the second sighting, keeps it afterwards. *)
Theorem repeat_sighting_resets_first_seen :
  let url := "https://bank.example/a" in
  let st := sample_mark url None Samples.old_storage in
  get_seen_articles Samples.old_storage !! url
  = Some {| title := Some "Bank launches assistant";
            first_seen := Some "2024-01-01T00:00:00";
            seen_count := Some 1 |} /\
  get_seen_articles st !! url
  = Some {| title := None;
            first_seen := Some "2025-06-01T12:00:00";
            seen_count := Some 2 |} /\
  is_article_seen url (sample_cleanup 30 Samples.old_storage) = false /\
  is_article_seen url (sample_cleanup 30 st) = true.
Proof. repeat split; vm_compute; reflexivity. Qed.

(** A cleanup of entries older than 60 days on 2025-06-01: the entry of 2024,
    the one whose date does not parse and the one with a UTC offset go; the
    entry of 2025-05-01 stays. *)
Example cleanup_mixed :
  let st := sample_cleanup 60 Samples.mixed_storage in
  is_article_seen "https://bank.example/a" st = false /\
  is_article_seen "https://bank.example/b" st = false /\
  is_article_seen "https://bank.example/c" st = true /\
  is_article_seen "https://bank.example/d" st = false.
Proof. repeat split; vm_compute; reflexivity. Qed.

(** With [days_old = 10000] the entries of 2024 and of 2025-05-01 both stay;
    the two entries without a usable date go all the same. *)
Example cleanup_mixed_10000 :
  let st := sample_cleanup 10000 Samples.mixed_storage in
  is_article_seen "https://bank.example/a" st = true /\
  is_article_seen "https://bank.example/b" st = false /\
  is_article_seen "https://bank.example/c" st = true /\
  is_article_seen "https://bank.example/d" st = false.
Proof. repeat split; vm_compute; reflexivity. Qed.

(** With [days_old = 0] both dated entries go as well. *)
Example cleanup_mixed_0 :
  get_seen_articles (sample_cleanup 0 Samples.mixed_storage) = ∅.
Proof. apply map_eq. intros url. rewrite lookup_empty.
  rewrite (cleanup_lookup Samples.clock Samples.isoformat Samples.fromisoformat
             Samples.write_ok 0 (Samples.clock 0)); [|reflexivity].
  unfold Samples.mixed_storage, Samples.storage_of, get_seen_articles. simpl.
  repeat (rewrite lookup_insert; case_decide; [reflexivity|]).
  by rewrite lookup_empty.
Qed.

Lemma cleanup_old_articles_removes_witness :
  let st := Samples.mixed_storage in
  match cutoff_date Samples.clock 60 (ticks st) with
  | Ok cutoff =>
      forall url,
        get_seen_articles (sample_cleanup 60 st) !! url
        = match get_seen_articles st !! url with
          | Some article_data =>
              if is_old Samples.fromisoformat cutoff article_data then None
              else Some article_data
          | None => None
          end
  | Raise _ => get_seen_articles (sample_cleanup 60 st) = get_seen_articles st
  end /\
  (datetime_min <= Samples.clock (ticks st) <= datetime_max ->
   forall url article_data t,
     get_seen_articles st !! url = Some article_data ->
     Samples.fromisoformat (default "" (first_seen article_data)) = Naive t ->
     t < Samples.clock (ticks st) ->
     is_article_seen url (sample_cleanup 0 st) = false) /\
  (datetime_min + 10000 * us_per_day <= Samples.clock (ticks st) <= datetime_max ->
   forall url article_data t,
     get_seen_articles st !! url = Some article_data ->
     Samples.fromisoformat (default "" (first_seen article_data)) = Naive t ->
     Samples.clock (ticks st) - 10000 * us_per_day <= t ->
     get_seen_articles (sample_cleanup 10000 st) !! url = Some article_data).
Proof.
  exact (cleanup_old_articles_removes Samples.clock Samples.isoformat
           Samples.fromisoformat Samples.write_ok 60 Samples.mixed_storage).
Defined.

(** C7, as stated, fails when the cutoff cannot be computed: with
    [days_old = 1000000] the date 1000000 days before 2025-06-01 is before
    the year 1, the subtraction raises [OverflowError], and the entry whose
    first-seen date does not parse is still there. *)
Lemma cleanup_overflow_counterexample :
  let url := "https://bank.example/b" in
  (exists article_data,
      get_seen_articles Samples.mixed_storage !! url = Some article_data /\
      Samples.fromisoformat (default "" (first_seen article_data)) = Invalid) /\
  cutoff_date Samples.clock 1000000 0 = Raise OverflowError /\
  is_article_seen url (sample_cleanup 1000000 Samples.mixed_storage) = true.
Proof.
  split; [|split; vm_compute; reflexivity].
  eexists. split; vm_compute; reflexivity.
Qed.

Lemma load_resets_on_failure_witness :
  _load_seen_articles Samples.clock Samples.isoformat (Unreadable JSONDecodeError) 0
  = ({| created_at := Some "2025-06-01T12:00:00";
        last_updated := Some "2025-06-01T12:00:01";
        articles := Some ∅ |}, 2%nat) /\
  forall url,
    is_article_seen url
      (init Samples.clock Samples.isoformat (Unreadable JSONDecodeError) 0) = false.
Proof.
  apply (load_resets_on_failure Samples.clock Samples.isoformat
           (Unreadable JSONDecodeError) 0).
  discriminate.
Defined.

End LedgerSamples.

(** ** Scheduler *)

Section Scheduler.
Import ContentScheduler RunScheduler.
Local Close Scope string_scope.

Lemma existsb_eqb_false (s : string) (l : list string) :
  s ∉ l -> existsb (String.eqb s) l = false.
Proof.
  intros Hnot. induction l as [|x l IH]; [done|]. simpl.
  apply not_elem_of_cons in Hnot as [Hne Hnot].
  rewrite IH by done. apply String.eqb_neq in Hne. by rewrite Hne.
Qed.

(** An interval outside the recognised names reaches the last branch of
    [setup_schedule]. *)
Lemma setup_schedule_unknown (schedule_interval : string) (rt : Runtime) :
  schedule_interval ∉ valid_intervals ->
  setup_schedule schedule_interval rt
  = {| jobs := jobs rt ++ [every_day_at "09:00"];
       log := log rt
              ++ [(INFO, "Setting up schedule: " +:+ schedule_interval)]
              ++ [(WARNING, "Unknown schedule interval: " +:+ schedule_interval
                            +:+ ", defaulting to daily")] |}.
Proof.
  intros Hnot. unfold valid_intervals in Hnot.
  repeat (apply not_elem_of_cons in Hnot as [?%String.eqb_neq Hnot]).
  unfold setup_schedule.
  repeat match goal with H : String.eqb _ _ = false |- _ => rewrite H; clear H end.
  unfold do, logger. simpl. by rewrite <-(assoc_L app).
Qed.

(** C9, as the code has it: [ContentScheduler] given an interval outside the
    recognised names registers the daily 09:00 job, as "daily" does, and logs
    a warning, without error or exit; [run_scheduler.main] does not let such
    an interval through, whether it comes from the command line or, without
    an argument, from [SCHEDULE_INTERVAL]: it logs an error and exits with
    status 1, and no job is registered. *)
Theorem unknown_interval (argv : list string) (env : option string) (rt : Runtime) :
  let schedule_interval :=
    match argv with
    | _ :: arg :: _ => arg
    | _ => default "daily" env
    end in
  schedule_interval ∉ valid_intervals ->
  jobs (setup_schedule schedule_interval rt) = jobs (setup_schedule "daily" rt) /\
  jobs (setup_schedule schedule_interval rt) = jobs rt ++ [every_day_at "09:00"] /\
  log (setup_schedule schedule_interval rt)
  = log rt
    ++ [(INFO, "Setting up schedule: " +:+ schedule_interval);
        (WARNING, "Unknown schedule interval: " +:+ schedule_interval
                  +:+ ", defaulting to daily")] /\
  ContentScheduler.main ["scheduler.py"; schedule_interval] rt
  = setup_schedule schedule_interval rt /\
  fst (RunScheduler.main argv env rt) = SysExit 1 /\
  jobs (snd (RunScheduler.main argv env rt)) = jobs rt /\
  exists msg,
    (ERROR, msg) ∈ drop (length (log rt)) (log (snd (RunScheduler.main argv env rt))).
Proof.
  intros schedule_interval Hnot. rewrite (setup_schedule_unknown _ _ Hnot). simpl.
  split; [done|]. split; [done|]. split; [done|]. split.
  { unfold ContentScheduler.main. by apply setup_schedule_unknown. }
  unfold RunScheduler.main. fold schedule_interval.
  rewrite (existsb_eqb_false _ _ Hnot). simpl.
  split; [done|]. split; [done|].
  eexists. unfold logger. simpl. rewrite <-!(assoc_L app), drop_app_length.
  right. right. left.
Qed.

Lemma unknown_interval_witness :
  let rt := {| jobs := []; log := [] |} in
  jobs (setup_schedule "fortnightly" rt) = jobs (setup_schedule "daily" rt) /\
  jobs (setup_schedule "fortnightly" rt) = jobs rt ++ [every_day_at "09:00"] /\
  log (setup_schedule "fortnightly" rt)
  = log rt
    ++ [(INFO, "Setting up schedule: " +:+ "fortnightly");
        (WARNING, "Unknown schedule interval: " +:+ "fortnightly"
                  +:+ ", defaulting to daily")] /\
  ContentScheduler.main ["scheduler.py"; "fortnightly"] rt
  = setup_schedule "fortnightly" rt /\
  fst (RunScheduler.main ["run_scheduler.py"] (Some "fortnightly") rt) = SysExit 1 /\
  jobs (snd (RunScheduler.main ["run_scheduler.py"] (Some "fortnightly") rt))
  = jobs rt /\
  exists msg,
    (ERROR, msg)
    ∈ drop (length (log rt))
        (log (snd (RunScheduler.main ["run_scheduler.py"] (Some "fortnightly") rt))).
Proof.
  apply (unknown_interval ["run_scheduler.py"] (Some "fortnightly")
           {| jobs := []; log := [] |}).
  apply (bool_decide_unpack _). vm_compute. exact I.
Defined.

(** C9, as stated, fails at the entry point of the scheduler:
    [run_scheduler.py fortnightly] logs an error and exits with status 1. *)
Lemma unknown_interval_counterexample :
  ("fortnightly" ∉ valid_intervals) /\
  RunScheduler.main ["run_scheduler.py"; "fortnightly"] None {| jobs := []; log := [] |}
  = (SysExit 1,
     {| jobs := [];
        log := [ (INFO, "Starting GenAI Content Monitor Scheduler");
                 (INFO, "Schedule interval: fortnightly");
                 (ERROR, "Invalid schedule interval: fortnightly");
                 (ERROR, "Valid options: hourly, every_2_hours, every_6_hours, daily, twice_daily, weekly") ] |}).
Proof.
  split; [|reflexivity].
  apply (bool_decide_unpack _). vm_compute. exact I.
Qed.

(** The recognised names are accepted by both entry points. *)
Lemma known_interval_started (schedule_interval : string) (rt : Runtime)
  (env : option string) :
  schedule_interval ∈ valid_intervals ->
  fst (RunScheduler.main ["run_scheduler.py"; schedule_interval] env rt) = Started.
Proof.
  intros Hin. unfold valid_intervals in Hin.
  repeat (apply elem_of_cons in Hin as [->|Hin]; [reflexivity|]).
  by apply elem_of_nil in Hin.
Qed.

End Scheduler.

(** * Further properties *)

(** ** Classifier: what the rules imply *)

Section ClassifierRules.
Import Py Re AIProcessor Samples.

Lemma word_count_empty : word_count "" = 0.
Proof. reflexivity. Qed.

(** X1: when no configured keyword occurs in the text, only the patterns can
    make it related, and two of them are needed: the second and the third
    rule both ask for a keyword. *)
Theorem no_keyword_needs_two_patterns (genai_keywords : list string) (content : string) :
  keyword_matches genai_keywords content = 0 ->
  is_genai_related genai_keywords content = (2 <=? pattern_matches content).
Proof.
  intros Hkw. unfold is_genai_related. rewrite Hkw.
  destruct (String.eqb_spec content "") as [->|Hne]; [done|].
  change (3 <=? 0) with false. change (1 <=? 0) with false.
  rewrite andb_false_r. simpl. by destruct (2 <=? pattern_matches content).
Qed.

Lemma no_keyword_needs_two_patterns_witness :
  is_genai_related ["blockchain"] "Machine learning with a transformer"
  = (2 <=? pattern_matches "Machine learning with a transformer").
Proof. apply no_keyword_needs_two_patterns. reflexivity. Defined.

Lemma density_above_threshold (matches words : Z) :
  0 < words -> words < 1000 * matches ->
  Qgtb (inject_Z matches / inject_Z (Z.max words 1)) (1 # 1000) = true.
Proof.
  intros Hpos Hlt. unfold Qgtb. apply negb_true_iff.
  destruct (Qle_bool _ _) eqn:E; [|done]. exfalso.
  apply Qle_bool_iff in E. rewrite Z.max_l in E by lia.
  destruct words as [|p|p]; try lia.
  unfold Qle, Qdiv, Qmult, Qinv, inject_Z in E. simpl in E. lia.
Qed.

(** X2: a text in which a keyword occurs and which has fewer than 1000 words
    per matched keyword is always related: its density is above 0.001. *)
Theorem keyword_in_short_text_is_related (genai_keywords : list string)
  (content : string) :
  1 <= keyword_matches genai_keywords content ->
  0 < word_count content ->
  word_count content < 1000 * keyword_matches genai_keywords content ->
  is_genai_related genai_keywords content = true.
Proof.
  intros Hkw Hpos Hlt. unfold is_genai_related.
  destruct (String.eqb_spec content "") as [->|Hne].
  { rewrite word_count_empty in Hpos. lia. }
  destruct (_ || _); [done|].
  unfold keyword_density. apply Z.ltb_lt in Hpos as Hpos'. rewrite Hpos'.
  rewrite density_above_threshold by done.
  apply Z.leb_le in Hkw. by rewrite Hkw.
Qed.

Lemma keyword_in_short_text_is_related_witness :
  is_genai_related default_keywords "Quarterly results mention one LLM pilot" = true.
Proof.
  apply keyword_in_short_text_is_related; vm_compute; reflexivity || discriminate.
Defined.

Lemma isspace_lower_char (c : ascii) : isspace (lower_char c) = isspace c.
Proof. destruct c as [[] [] [] [] [] [] [] []]; reflexivity. Qed.

Lemma split_ws_aux_lower_length (s : string) (cur cur' : option string) :
  is_Some cur <-> is_Some cur' ->
  length (split_ws_aux cur (lower s)) = length (split_ws_aux cur' s).
Proof.
  revert cur cur'. induction s as [|c s IH]; intros cur cur' Hsame; simpl.
  - destruct cur, cur'; try done.
    + destruct Hsame as [H _]. by destruct H.
    + destruct Hsame as [_ H]. by destruct H.
  - rewrite isspace_lower_char. destruct (isspace c).
    + destruct cur, cur'; simpl.
      * f_equal. by apply IH.
      * destruct Hsame as [H _]. by destruct H.
      * destruct Hsame as [_ H]. by destruct H.
      * by apply IH.
    + apply IH. split; eauto.
Qed.

Lemma word_count_lower (content : string) :
  word_count (lower content) = word_count content.
Proof.
  unfold word_count, split_ws. f_equal. by apply split_ws_aux_lower_length.
Qed.

Lemma lower_char_idemp (c : ascii) : lower_char (lower_char c) = lower_char c.
Proof. destruct c as [[] [] [] [] [] [] [] []]; reflexivity. Qed.

Lemma lower_idemp (s : string) : lower (lower s) = lower s.
Proof. induction s as [|c s IH]; simpl; [done|]. by rewrite lower_char_idemp, IH. Qed.

Lemma lower_eq_empty (s : string) : lower s = "" <-> s = "".
Proof. by destruct s. Qed.

(** The verdict depends on the text through its lower-case form only. *)
Lemma is_genai_related_lower (genai_keywords : list string) (content : string) :
  is_genai_related genai_keywords (lower content)
  = is_genai_related genai_keywords content.
Proof.
  unfold is_genai_related, keyword_density, keyword_matches, pattern_matches,
    context_matches.
  rewrite word_count_lower, lower_idemp.
  destruct (String.eqb_spec (lower content) "") as [H|H];
    destruct (String.eqb_spec content "") as [H'|H']; try done.
  - destruct H'. by apply lower_eq_empty.
  - destruct H. by apply lower_eq_empty.
Qed.

(** X3: letter case does not matter: two texts with the same lower-case form
    get the same verdict. *)
Theorem verdict_ignores_case (genai_keywords : list string) (content1 content2 : string) :
  lower content1 = lower content2 ->
  is_genai_related genai_keywords content1 = is_genai_related genai_keywords content2.
Proof.
  intros Hsame.
  rewrite <-(is_genai_related_lower _ content1), <-(is_genai_related_lower _ content2).
  by rewrite Hsame.
Qed.

Lemma verdict_ignores_case_witness :
  is_genai_related default_keywords "CHATGPT FOR BANKS"
  = is_genai_related default_keywords "ChatGpt for Banks".
Proof. apply verdict_ignores_case. reflexivity. Defined.

Lemma count_if_app {A} (test : A -> bool) (l1 l2 : list A) :
  count_if test (l1 ++ l2) = count_if test l1 + count_if test l2.
Proof.
  rewrite !count_if_filter, List.filter_app, length_app. lia.
Qed.

Lemma Qgtb_density_mono (m m' words : Z) :
  m <= m' -> 0 < words ->
  Qgtb (inject_Z m / inject_Z (Z.max words 1)) (1 # 1000) = true ->
  Qgtb (inject_Z m' / inject_Z (Z.max words 1)) (1 # 1000) = true.
Proof.
  unfold Qgtb. intros Hle Hpos H. apply negb_true_iff in H. apply negb_true_iff.
  destruct (Qle_bool (inject_Z m' / _) _) eqn:E; [|done].
  assert (Qle_bool (inject_Z m / inject_Z (Z.max words 1)) (1 # 1000) = true);
    [|congruence].
  apply Qle_bool_iff. apply Qle_bool_iff in E.
  rewrite Z.max_l in * by lia.
  destruct words as [|p|p]; try lia.
  unfold Qle, Qdiv, Qmult, Qinv, inject_Z in *. simpl in *. nia.
Qed.

(** The three rules as one formula. *)
Lemma is_genai_related_rules (genai_keywords : list string) (content : string) :
  is_genai_related genai_keywords content
  = negb (String.eqb content "")
    && ((3 <=? keyword_matches genai_keywords content)
        || (2 <=? pattern_matches content)
        || ((1 <=? keyword_matches genai_keywords content)
            && (Qgtb (keyword_density genai_keywords content) (1 # 1000)
                || (1 <=? pattern_matches content)))
        || ((3 <=? context_matches content)
            && (1 <=? keyword_matches genai_keywords content))).
Proof.
  unfold is_genai_related.
  destruct (String.eqb content ""); [done|].
  destruct (3 <=? _); [done|]. destruct (2 <=? _); [done|].
  destruct (1 <=? keyword_matches _ _); simpl; [|by rewrite andb_false_r].
  destruct (Qgtb _ _); [done|]. destruct (1 <=? pattern_matches _); [done|].
  simpl. by destruct (3 <=? _).
Qed.

Lemma keyword_density_mono (genai_keywords more : list string) (content : string) :
  keyword_matches genai_keywords content
  <= keyword_matches (genai_keywords ++ more) content ->
  Qgtb (keyword_density genai_keywords content) (1 # 1000) = true ->
  Qgtb (keyword_density (genai_keywords ++ more) content) (1 # 1000) = true.
Proof.
  intros Hle. unfold keyword_density.
  destruct (0 <? word_count content) eqn:Ew; [|done].
  apply Z.ltb_lt in Ew. by apply Qgtb_density_mono.
Qed.

(** X4: configuring more keywords never loses a detection: a text related
    under a keyword list is related under every longer list. *)
Theorem more_keywords_keep_verdict (genai_keywords more : list string)
  (content : string) :
  is_genai_related genai_keywords content = true ->
  is_genai_related (genai_keywords ++ more) content = true.
Proof.
  assert (keyword_matches genai_keywords content
          <= keyword_matches (genai_keywords ++ more) content) as Hle.
  { unfold keyword_matches. rewrite count_if_app.
    pose proof (count_if_filter (fun keyword => contains keyword (lower content)) more).
    lia. }
  pose proof (keyword_density_mono genai_keywords more content Hle) as Hdens.
  rewrite !is_genai_related_rules.
  rewrite !andb_true_iff, !orb_true_iff, !andb_true_iff, !orb_true_iff, !Z.leb_le.
  intros [Hne Hrules]. split; [done|].
  destruct Hrules as [[[H|H]|[H [H'|H']]]|[H H']].
  - left. left. left. lia.
  - left. left. by right.
  - left. right. split; [lia|]. left. by apply Hdens.
  - left. right. split; [lia|]. by right.
  - right. split; [done|lia].
Qed.

Lemma more_keywords_keep_verdict_witness :
  is_genai_related (["llm"] ++ ["copilot"; "chatbot"]) "The LLM desk grows" = true.
Proof. apply more_keywords_keep_verdict. reflexivity. Defined.

End ClassifierRules.

(** ** Summarizer: what every path returns *)

Section SummarizerPaths.
Import Py Re AIProcessor Samples.

Lemma endswith_dot_nonempty (s : string) : endswith "." s = true -> s <> "".
Proof. by intros H ->. Qed.

(** X5: whatever the model does, loaded or not, answering or raising, and
    whatever the text and the two lengths, [summarize_article] returns a
    string that is not empty. *)
Theorem summary_never_empty (genai_keywords : list string)
  (summarizer : option Summarizer) (content : string) (max_length min_length : Z) :
  summarize_article genai_keywords summarizer content max_length min_length <> "".
Proof.
  unfold summarize_article. destruct summarizer as [model|]; [|done].
  destruct (String.eqb_spec content "") as [->|Hne]; [done|].
  destruct (model _ _ _) as [summary_text|e].
  - destruct (endswith "." (strip summary_text)) eqn:E.
    + by apply endswith_dot_nonempty.
    + by apply app_nonempty_r.
  - pose proof (cap_input_nonempty _ Hne) as Htext.
    destruct (le_lt_dec (length (split_dot_space (cap_input content))) 2) as [Hfew|Hmany].
    + rewrite extractive_few_sentences by done.
      destruct (_ <? _); [by apply app_nonempty_r | done].
    + by destruct (extractive_many_sentences genai_keywords _ max_length Hmany).
Qed.

(** X6: when the model answers, the summary is its text without the blanks
    around it if that ends with a period, and that text with a period added
    if it does not; so it always ends with exactly the period the text had
    or the one added. *)
Theorem model_summary_ends_with_period (genai_keywords : list string)
  (model : Summarizer) (content summary_text : string) (max_length min_length : Z) :
  content <> "" ->
  model (cap_input content) max_length min_length = Ok summary_text ->
  let summary :=
    summarize_article genai_keywords (Some model) content max_length min_length in
  summary = (if endswith "." (strip summary_text) then strip summary_text
             else strip summary_text ++ ".") /\
  endswith "." summary = true.
Proof.
  intros Hne Hmodel. simpl. unfold summarize_article.
  rewrite (eqb_empty_false _ Hne), Hmodel.
  destruct (endswith "." (strip summary_text)) eqn:E.
  - by split.
  - split; [done | apply endswith_app].
Qed.

Lemma model_summary_ends_with_period_witness :
  let summary :=
    summarize_article default_keywords (Some (fun _ _ _ => Ok "  Banks adopt GPT. "))
      "Banks adopt GPT. Regulators watch." 150 50 in
  summary = (if endswith "." (strip "  Banks adopt GPT. ") then strip "  Banks adopt GPT. "
             else strip "  Banks adopt GPT. " ++ ".") /\
  endswith "." summary = true.
Proof.
  apply (model_summary_ends_with_period default_keywords
           (fun _ _ _ => Ok "  Banks adopt GPT. ")); [discriminate | reflexivity].
Defined.

(** The two cases on samples: a text that ends with a period is returned
    without a second one, and a text that does not gets one. *)
Example model_summary_on_samples :
  map (fun summary_text =>
         summarize_article default_keywords (Some (fun _ _ _ => Ok summary_text))
           "Banks adopt GPT. Regulators watch." 150 50)
      ["  Banks adopt GPT. "; "  Banks adopt GPT "; "Done."; ""]
  = ["Banks adopt GPT."; "Banks adopt GPT."; "Done."; "."].
Proof. reflexivity. Qed.

(** *** The length of the extractive summary *)

Lemma length_append (s t : string) :
  String.length (s ++ t) = (String.length s + String.length t)%nat.
Proof. induction s as [|c s IH]; [done|]. rewrite app_cons. simpl. by rewrite IH. Qed.

Lemma len_app (s t : string) : len (s ++ t) = len s + len t.
Proof. unfold len. rewrite length_append. lia. Qed.

Lemma length_take_string (n : nat) (s : string) :
  String.length (take n s) = Nat.min n (String.length s).
Proof.
  revert s. induction n as [|n IH]; intros [|c s]; simpl; try done.
  by rewrite IH.
Qed.

Lemma len_slice_to (m : Z) (s : string) : 0 <= m -> len (slice_to m s) <= m.
Proof.
  intros Hm. unfold slice_to, len. rewrite (proj2 (Z.leb_le 0 m) Hm).
  rewrite length_take_string. lia.
Qed.

Lemma len_join (sep : string) (parts : list string) :
  len (join sep parts)
  = foldr (fun part n => len part + n) 0 parts
    + len sep * Z.of_nat (length parts - 1).
Proof.
  induction parts as [|p [|q parts] IH].
  - simpl. unfold len. simpl. lia.
  - simpl. lia.
  - change (join sep (p :: q :: parts)) with (p ++ sep ++ join sep (q :: parts)).
    rewrite !len_app, IH. simpl length.
    change (foldr (fun part n => len part + n) 0 (p :: q :: parts))
      with (len p + foldr (fun part n => len part + n) 0 (q :: parts)).
    replace (S (S (length parts)) - 1)%nat with (S (S (length parts) - 1)) by lia.
    lia.
Qed.

Lemma length_select_parts (max_length current_length : Z) (scored : list (Q * string)) :
  (length (select_parts max_length current_length scored) <= length scored)%nat.
Proof.
  revert current_length. induction scored as [|[score sentence] rest IH];
    intros cur; simpl; [lia|].
  destruct (_ <? _); simpl; [lia|]. specialize (IH (cur + len sentence)). lia.
Qed.

Lemma length_insert_desc (x : Q * string) (l : list (Q * string)) :
  length (insert_desc x l) = S (length l).
Proof.
  induction l as [|y l IH]; simpl; [done|]. destruct (Qle_bool _ _); simpl; lia.
Qed.

Lemma length_sort_desc (l : list (Q * string)) : length (sort_desc l) = length l.
Proof.
  induction l as [|x l IH]; simpl; [done|]. by rewrite length_insert_desc, IH.
Qed.

(** X7: for [max_length >= 0] the extractive summary of a text of [n]
    sentences has at most [max_length + 3] characters when [n <= 2], and at
    most [max_length + 2 * n - 1] otherwise: the chosen sentences fit in
    [max_length], and each separator and the final period come on top. *)
Theorem extractive_summary_length (genai_keywords : list string) (content : string)
  (max_length : Z) :
  0 <= max_length ->
  len (_generate_extractive_summary genai_keywords content max_length)
  <= max_length + Z.max 3 (2 * Z.of_nat (length (split_dot_space content)) - 1).
Proof.
  intros Hm.
  destruct (le_lt_dec (length (split_dot_space content)) 2) as [Hfew|Hmany].
  - rewrite extractive_few_sentences by done.
    destruct (max_length <? len content) eqn:E.
    + rewrite len_app. pose proof (len_slice_to max_length content Hm).
      change (len "...") with 3. lia.
    + apply Z.ltb_ge in E. lia.
  - unfold _generate_extractive_summary.
    apply Nat.leb_gt in Hmany as Hmany'. rewrite Hmany'.
    set (scored := sort_desc (imap (score_sentence genai_keywords)
                                   (split_dot_space content))).
    set (parts := select_parts max_length 0 scored).
    assert (length parts <= length (split_dot_space content))%nat as Hk.
    { etrans; [apply length_select_parts|].
      subst scored. by rewrite length_sort_desc, length_imap. }
    pose proof (select_parts_total max_length 0 scored Hm) as Hsum. fold parts in Hsum.
    pose proof (len_join ". " parts) as Hjoin. change (len ". ") with 2 in Hjoin.
    assert (len (slice_to max_length content ++ "...") <= max_length + 3) as Hfall.
    { rewrite len_app. pose proof (len_slice_to max_length content Hm).
      change (len "...") with 3. lia. }
    destruct (String.eqb_spec (join ". " parts) "") as [Hj|Hj]; simpl.
    + rewrite Hj. simpl. lia.
    + assert (parts <> []) as Hparts by (intros Heq; by rewrite Heq in Hj).
      assert (1 <= length parts)%nat by (destruct parts; simpl; [done | lia]).
      destruct (endswith "." (join ". " parts)); simpl.
      * rewrite (eqb_empty_false _ Hj). simpl. lia.
      * assert (join ". " parts ++ "." <> "") as Hd by by apply app_nonempty_r.
        rewrite (eqb_empty_false _ Hd). simpl. rewrite len_app.
        change (len ".") with 1. lia.
Qed.

Lemma extractive_summary_length_witness :
  len (_generate_extractive_summary default_keywords "aaaa. bbbb. cc" 10)
  <= 10 + Z.max 3 (2 * Z.of_nat (length (split_dot_space "aaaa. bbbb. cc")) - 1).
Proof. apply extractive_summary_length. lia. Defined.

End SummarizerPaths.

(** ** Summarizer: ranking of the sentences and the cap on the input *)

Section SummarizerRanking.
Import Py Re AIProcessor Samples.

Lemma insert_desc_perm (x : Q * string) (l : list (Q * string)) :
  insert_desc x l ≡ₚ x :: l.
Proof.
  induction l as [|y l IH]; simpl; [done|].
  destruct (Qle_bool _ _); [done|]. rewrite IH. apply Permutation_swap.
Qed.

Lemma sort_desc_perm (l : list (Q * string)) : sort_desc l ≡ₚ l.
Proof.
  induction l as [|x l IH]; simpl; [done|]. by rewrite insert_desc_perm, IH.
Qed.

Lemma insert_desc_sorted (x : Q * string) (l : list (Q * string)) :
  StronglySorted (fun a b => (fst b <= fst a)%Q) l ->
  StronglySorted (fun a b => (fst b <= fst a)%Q) (insert_desc x l).
Proof.
  induction 1 as [|y l Hsorted IH Hy]; simpl.
  - constructor; [constructor | constructor].
  - destruct (Qle_bool (fst y) (fst x)) eqn:E.
    + apply Qle_bool_iff in E. constructor; [by constructor|].
      constructor; [done|].
      eapply Forall_impl; [exact Hy|]. intros z Hz. simpl in *.
      by eapply Qle_trans.
    + constructor; [done|].
      rewrite insert_desc_perm. constructor; [|done].
      simpl. apply Qlt_le_weak, Qnot_le_lt. intros Hle.
      apply Qle_bool_iff in Hle. congruence.
Qed.

(** X8: the ranking keeps every scored sentence, once each, and puts them in
    order of score, highest first. *)
Theorem sort_desc_sorts (l : list (Q * string)) :
  sort_desc l ≡ₚ l /\
  StronglySorted (fun a b => (fst b <= fst a)%Q) (sort_desc l).
Proof.
  split; [apply sort_desc_perm|].
  induction l as [|x l IH]; simpl; [constructor|]. by apply insert_desc_sorted.
Qed.

Lemma filter_insert_desc (q : Q) (x : Q * string) (l : list (Q * string)) :
  List.filter (fun p => Qeq_bool (fst p) q) (insert_desc x l)
  = List.filter (fun p => Qeq_bool (fst p) q) (x :: l).
Proof.
  induction l as [|y l IH]; [done|]. simpl insert_desc.
  destruct (Qle_bool (fst y) (fst x)) eqn:E; [done|].
  simpl in *. rewrite IH.
  destruct (Qeq_bool (fst x) q) eqn:Ex; [|done].
  destruct (Qeq_bool (fst y) q) eqn:Ey; [|done].
  exfalso. apply Qeq_bool_iff in Ex, Ey.
  assert (Qle_bool (fst y) (fst x) = true); [|congruence].
  apply Qle_bool_iff. rewrite Ex, Ey. apply Qle_refl.
Qed.

(** X9: the ranking is stable: the sentences that share a score come out in
    the order in which they went in. *)
Theorem sort_desc_stable_order (q : Q) (l : list (Q * string)) :
  List.filter (fun p => Qeq_bool (fst p) q) (sort_desc l)
  = List.filter (fun p => Qeq_bool (fst p) q) l.
Proof.
  induction l as [|x l IH]; [done|].
  simpl sort_desc. rewrite filter_insert_desc. simpl. by rewrite IH.
Qed.

(** *** Words survive [' '.join(content.split())] *)

Lemma append_empty_r (s : string) : s ++ "" = s.
Proof. induction s as [|c s IH]; [done|]. rewrite app_cons. by rewrite IH. Qed.

Lemma split_ws_aux_run (w u s : string) :
  Forall (fun c => isspace c = false) (list_ascii_of_string w) ->
  split_ws_aux (Some u) (w ++ s) = split_ws_aux (Some (u ++ w)) s.
Proof.
  revert u. induction w as [|c w IH]; intros u Hw.
  - by rewrite append_empty_r.
  - simpl in Hw. apply Forall_cons in Hw as [Hc Hw].
    rewrite app_cons. simpl. rewrite Hc. rewrite (IH _ Hw).
    by rewrite app_assoc_string.
Qed.

Lemma split_ws_aux_word (w s : string) :
  w <> "" -> Forall (fun c => isspace c = false) (list_ascii_of_string w) ->
  split_ws_aux None (w ++ s) = split_ws_aux (Some w) s.
Proof.
  intros Hne Hw. destruct w as [|c w]; [done|].
  simpl in Hw. apply Forall_cons in Hw as [Hc Hw].
  rewrite app_cons. simpl. rewrite Hc. by rewrite (split_ws_aux_run _ _ _ Hw).
Qed.

Lemma split_ws_aux_blank (w s : string) (c : ascii) :
  isspace c = true -> split_ws_aux (Some w) (String c s) = w :: split_ws_aux None s.
Proof. intros Hc. simpl. by rewrite Hc. Qed.

(** Joining words with single blanks and splitting again gives the words. *)
Lemma split_ws_join (ws : list string) :
  Forall (fun w => w <> ""
                   /\ Forall (fun c => isspace c = false) (list_ascii_of_string w)) ws ->
  split_ws (join " " ws) = ws.
Proof.
  unfold split_ws. induction 1 as [|w [|w' ws] [Hne Hw] Hws IH].
  - done.
  - simpl. rewrite <-(append_empty_r w) at 1. by rewrite split_ws_aux_word.
  - change (join " " (w :: w' :: ws)) with (w ++ " " ++ join " " (w' :: ws)).
    rewrite split_ws_aux_word by done.
    change (" " ++ join " " (w' :: ws)) with (String " " (join " " (w' :: ws))).
    rewrite split_ws_aux_blank by done. by rewrite IH.
Qed.

Lemma list_ascii_app (s t : string) :
  list_ascii_of_string (s ++ t)
  = (list_ascii_of_string s ++ list_ascii_of_string t)%list.
Proof. induction s as [|c s IH]; [done|]. rewrite app_cons. simpl. by rewrite IH. Qed.

(** What [split] returns are words: not empty, without whitespace. *)
Lemma split_ws_aux_words (s : string) (cur : option string) :
  match cur with
  | Some u => u <> "" /\ Forall (fun c => isspace c = false) (list_ascii_of_string u)
  | None => True
  end ->
  Forall (fun w => w <> ""
                   /\ Forall (fun c => isspace c = false) (list_ascii_of_string w))
         (split_ws_aux cur s).
Proof.
  revert cur. induction s as [|c s IH]; intros cur Hcur; simpl.
  - destruct cur; [by constructor | constructor].
  - destruct (isspace c) eqn:Ec.
    + destruct cur; [constructor; [done|] |]; by apply IH.
    + apply IH. split.
      * by apply app_nonempty_r.
      * rewrite list_ascii_app. apply Forall_app. split.
        -- destruct cur as [u|]; [by destruct Hcur | constructor].
        -- by repeat constructor.
Qed.

(** X10: the model is given the first 1024 words of the text and no more: a
    text of at most 1024 words goes unchanged, and a longer one is replaced
    by its first 1024 words. *)
Theorem cap_input_first_words (content : string) :
  split_ws (cap_input content) = firstn 1024 (split_ws content) /\
  ((length (split_ws content) <= 1024)%nat -> cap_input content = content) /\
  word_count (cap_input content) <= 1024.
Proof.
  assert (split_ws (cap_input content) = firstn 1024 (split_ws content)) as Hsplit.
  { unfold cap_input. destruct (1024 <? length (split_ws content))%nat eqn:E.
    - apply split_ws_join, Forall_take. by apply split_ws_aux_words.
    - apply Nat.ltb_ge in E. by rewrite firstn_all2. }
  split; [done|]. split.
  - intros Hle. unfold cap_input. apply Nat.ltb_ge in Hle. by rewrite Hle.
  - unfold word_count. rewrite Hsplit, length_take. lia.
Qed.

End SummarizerRanking.

(** ** Ledger: frame, counts and the effect of a cleanup *)

Section LedgerMore.
Import Py ArticleStorage.

Variable clock : nat -> Z.
Variable isoformat : Z -> string.
Variable fromisoformat : string -> Parsed.
Variable write_ok : nat -> bool.

Abbreviation mark' := (mark_article_seen clock isoformat write_ok).
Abbreviation cleanup' :=
  (cleanup_old_articles clock isoformat fromisoformat write_ok).

(** X11: marking a URL leaves every other entry of the ledger, and the
    creation date of the ledger, as they were. *)
Theorem mark_leaves_others (url url' : string) (title : option string) (st : Storage) :
  url <> url' ->
  get_seen_articles (mark' url title st) !! url' = get_seen_articles st !! url' /\
  created_at (seen_articles (mark' url title st)) = created_at (seen_articles st).
Proof.
  intros Hne. split; [|done].
  rewrite get_seen_articles_mark. by apply lookup_insert_ne.
Qed.

Lemma seen_count_after_mark (url : string) (title : option string) (st : Storage) :
  get_seen_articles (mark' url title st) !! url ≫= seen_count
  = Some (default 0 (get_seen_articles st !! url ≫= seen_count) + 1).
Proof. by rewrite get_seen_articles_mark, lookup_insert_eq. Qed.

Lemma seen_count_after_marks (url : string) (title : option string) (st : Storage)
  (n : nat) :
  get_seen_articles (Nat.iter (S n) (mark' url title) st) !! url ≫= seen_count
  = Some (default 0 (get_seen_articles st !! url ≫= seen_count) + Z.of_nat (S n)).
Proof.
  induction n as [|n IH].
  - simpl Nat.iter. rewrite seen_count_after_mark. f_equal.
  - change (Nat.iter (S (S n)) (mark' url title) st)
      with (mark' url title (Nat.iter (S n) (mark' url title) st)).
    rewrite seen_count_after_mark, IH. simpl default. f_equal. lia.
Qed.

(** X12: the count of an entry is the number of times its URL was marked:
    [n + 1] calls on a ledger without the URL leave a count of [n + 1]. *)
Theorem seen_count_counts_marks (url : string) (title : option string) (st : Storage)
  (n : nat) :
  is_article_seen url st = false ->
  get_seen_articles (Nat.iter (S n) (mark' url title) st) !! url ≫= seen_count
  = Some (Z.of_nat (S n)).
Proof.
  intros Hnew%is_article_seen_false.
  rewrite seen_count_after_marks, Hnew. simpl default. f_equal.
Qed.

(** X13: the number of articles that [get_stats] reports grows by one when a
    new URL is marked and stays the same when a known URL is marked again. *)
Theorem stats_after_mark (getsize : File -> Z) (url : string) (title : option string)
  (st : Storage) :
  total_articles_seen (get_stats getsize (mark' url title st))
  = if is_article_seen url st
    then total_articles_seen (get_stats getsize st)
    else S (total_articles_seen (get_stats getsize st)).
Proof.
  unfold get_stats. simpl total_articles_seen. rewrite get_seen_articles_mark.
  destruct (is_article_seen url st) eqn:E.
  - apply is_article_seen_true in E. by rewrite map_size_insert_Some.
  - apply is_article_seen_false in E. by rewrite map_size_insert_None.
Qed.

(** X14: a cleanup never adds or alters an entry: what is in the ledger
    afterwards was there before, unchanged, whatever [days_old] is. *)
Theorem cleanup_only_removes (days_old : Z) (st : Storage) :
  get_seen_articles (cleanup' days_old st) ⊆ get_seen_articles st.
Proof.
  apply map_subseteq_spec. intros url article_data Hafter.
  destruct (cutoff_date clock days_old (ticks st)) as [cutoff|e] eqn:Hcut.
  - rewrite (cleanup_lookup _ _ _ _ _ _ _ _ Hcut) in Hafter.
    destruct (get_seen_articles st !! url) as [a|]; [|done].
    by destruct (is_old fromisoformat cutoff a).
  - unfold cleanup_old_articles in Hafter. by rewrite Hcut in Hafter.
Qed.

(** X15: a cleanup that removes nothing does not save: the ledger, with its
    last-updated date, and the file stay as they were. *)
Theorem cleanup_without_removal (days_old : Z) (st : Storage) :
  get_seen_articles (cleanup' days_old st) = get_seen_articles st ->
  seen_articles (cleanup' days_old st) = seen_articles st /\
  file (cleanup' days_old st) = file st.
Proof.
  intros Hsame. unfold cleanup_old_articles in *.
  destruct (cutoff_date clock days_old (ticks st)) as [cutoff|e]; [|done].
  simpl in *.
  change (get_seen_articles {| seen_articles := seen_articles st; file := file st;
                               ticks := S (ticks st) |})
    with (get_seen_articles st) in *.
  destruct (urls_to_remove fromisoformat cutoff (get_seen_articles st))
    as [|url urls] eqn:Hurls; [done|].
  exfalso.
  assert (url ∈ urls_to_remove fromisoformat cutoff (get_seen_articles st)) as Hin
    by (rewrite Hurls; left).
  apply elem_of_urls_to_remove in Hin as (a & Hlook & _).
  simpl in Hsame. unfold get_seen_articles at 1 in Hsame. simpl in Hsame.
  rewrite <-Hsame in Hlook. by rewrite lookup_delete_eq in Hlook.
Qed.

(** X16: a URL that was just marked survives a cleanup, provided the clock
    has not gone back behind the cutoff and the date written by [isoformat]
    reads back as the same date. *)
Theorem marked_survives_cleanup (url : string) (title : option string) (days_old cutoff : Z)
  (st : Storage) :
  fromisoformat (isoformat (clock (ticks st))) = Naive (clock (ticks st)) ->
  cutoff_date clock days_old (ticks (mark' url title st)) = Ok cutoff ->
  cutoff <= clock (ticks st) ->
  is_article_seen url (cleanup' days_old (mark' url title st)) = true.
Proof.
  intros Hround Hcut Hle. apply is_article_seen_true.
  rewrite (cleanup_lookup _ _ _ _ _ _ _ _ Hcut).
  rewrite get_seen_articles_mark, lookup_insert_eq.
  unfold is_old. simpl. rewrite Hround.
  apply Z.ltb_ge in Hle. rewrite Hle. eauto.
Qed.

End LedgerMore.

Section LedgerMoreSamples.
Import Py ArticleStorage.

Lemma mark_leaves_others_witness :
  get_seen_articles
    (mark_article_seen Samples.clock Samples.isoformat Samples.write_ok
       "https://bank.example/b" None Samples.old_storage) !! "https://bank.example/a"
  = get_seen_articles Samples.old_storage !! "https://bank.example/a" /\
  created_at (seen_articles
    (mark_article_seen Samples.clock Samples.isoformat Samples.write_ok
       "https://bank.example/b" None Samples.old_storage))
  = created_at (seen_articles Samples.old_storage).
Proof. apply mark_leaves_others. discriminate. Defined.

Lemma seen_count_counts_marks_witness :
  get_seen_articles
    (Nat.iter 3 (mark_article_seen Samples.clock Samples.isoformat Samples.write_ok
                   "https://bank.example/a" None) Samples.empty_storage)
    !! "https://bank.example/a" ≫= seen_count
  = Some (Z.of_nat 3).
Proof. apply seen_count_counts_marks. reflexivity. Defined.

Lemma cleanup_without_removal_witness :
  seen_articles
    (cleanup_old_articles Samples.clock Samples.isoformat Samples.fromisoformat
       Samples.write_ok 10000 Samples.old_storage)
  = seen_articles Samples.old_storage /\
  file (cleanup_old_articles Samples.clock Samples.isoformat Samples.fromisoformat
          Samples.write_ok 10000 Samples.old_storage)
  = file Samples.old_storage.
Proof. apply cleanup_without_removal. vm_compute. reflexivity. Defined.

Lemma marked_survives_cleanup_witness :
  is_article_seen "https://bank.example/b"
    (cleanup_old_articles Samples.clock Samples.isoformat Samples.fromisoformat
       Samples.write_ok 1
       (mark_article_seen Samples.clock Samples.isoformat Samples.write_ok
          "https://bank.example/b" None Samples.old_storage)) = true.
Proof.
  apply (marked_survives_cleanup Samples.clock Samples.isoformat Samples.fromisoformat
           Samples.write_ok _ _ 1 (Samples.clock 2 - us_per_day)).
  - reflexivity.
  - reflexivity.
  - vm_compute. discriminate.
Defined.

End LedgerMoreSamples.

(** ** Scheduler: what [setup_schedule] and the runner always do *)

Section SchedulerMore.
Import ContentScheduler RunScheduler.
Local Close Scope string_scope.

(** A recognised interval: the jobs it adds do not depend on the registry,
    and only the line that announces the setup is logged. *)
Lemma setup_schedule_known (schedule_interval : string) :
  schedule_interval ∈ valid_intervals ->
  exists added,
    length added = (if String.eqb schedule_interval "twice_daily" then 2 else 1)%nat /\
    forall rt,
      setup_schedule schedule_interval rt
      = {| jobs := jobs rt ++ added;
           log := log rt ++ [(INFO, "Setting up schedule: " +:+ schedule_interval)] |}.
Proof.
  intros Hin. unfold valid_intervals in Hin.
  repeat (apply elem_of_cons in Hin as [->|Hin]);
    [ eexists; split; [|intros rt; unfold setup_schedule, do, logger; simpl;
                         try rewrite <-(assoc_L app); reflexivity]; reflexivity ..
    | by apply elem_of_nil in Hin ].
Qed.

(** X17: whatever the interval, [setup_schedule] keeps the jobs already in
    the registry and adds one job after them, or two for "twice_daily"; it
    logs a warning exactly when the interval is not a recognised name. *)
Theorem setup_schedule_adds_jobs (schedule_interval : string) (rt : Runtime) :
  exists added,
    jobs (setup_schedule schedule_interval rt) = jobs rt ++ added /\
    length added = (if String.eqb schedule_interval "twice_daily" then 2 else 1)%nat /\
    ((exists msg, (WARNING, msg)
                  ∈ drop (length (log rt)) (log (setup_schedule schedule_interval rt)))
     <-> schedule_interval ∉ valid_intervals).
Proof.
  destruct (decide (schedule_interval ∈ valid_intervals)) as [Hin|Hnot].
  - destruct (setup_schedule_known _ Hin) as (added & Hlen & Hsetup).
    exists added. rewrite Hsetup. simpl. split; [done|]. split; [done|].
    rewrite drop_app_length. split; [|done].
    intros [msg Hmsg]. apply list_elem_of_singleton in Hmsg. discriminate.
  - exists [every_day_at "09:00"].
    rewrite (setup_schedule_unknown _ _ Hnot). simpl.
    split; [done|]. split.
    + assert (String.eqb schedule_interval "twice_daily" = false) as ->; [|done].
      apply String.eqb_neq. intros ->. apply Hnot. apply (bool_decide_unpack _).
      vm_compute. exact I.
    + split; [done|]. intros _. eexists.
      rewrite drop_app_length. right. left.
Qed.

Lemma existsb_eqb_true (s : string) (l : list string) :
  s ∈ l -> existsb (String.eqb s) l = true.
Proof.
  intros Hin. apply existsb_exists. exists s. split.
  - by apply list_elem_of_In.
  - apply String.eqb_refl.
Qed.

(** X18: the runner takes the interval from the command line, else from
    [SCHEDULE_INTERVAL], else "daily"; when that interval is a recognised
    name it goes on to the scheduler, whose jobs are those of
    [setup_schedule], and logs no error. *)
Theorem runner_starts_on_known_interval (argv : list string) (env : option string)
  (rt : Runtime) :
  let schedule_interval :=
    match argv with
    | _ :: arg :: _ => arg
    | _ => default "daily" env
    end in
  schedule_interval ∈ valid_intervals ->
  fst (RunScheduler.main argv env rt) = Started /\
  jobs (snd (RunScheduler.main argv env rt))
  = jobs (setup_schedule schedule_interval rt) /\
  forall msg,
    (ERROR, msg) ∉ drop (length (log rt)) (log (snd (RunScheduler.main argv env rt))).
Proof.
  intros schedule_interval Hin. unfold RunScheduler.main.
  fold schedule_interval. rewrite (existsb_eqb_true _ _ Hin). simpl.
  split; [done|].
  destruct (setup_schedule_known _ Hin) as (added & _ & Hsetup).
  rewrite !Hsetup. simpl. split; [done|].
  intros msg. unfold logger. simpl. rewrite <-!(assoc_L app), drop_app_length.
  intros Hmsg. simpl in Hmsg.
  repeat (apply elem_of_cons in Hmsg as [Hmsg|Hmsg]; [discriminate|]).
  by apply elem_of_nil in Hmsg.
Qed.

Lemma runner_starts_on_known_interval_witness :
  let rt := {| jobs := []; log := [] |} in
  fst (RunScheduler.main ["run_scheduler.py"] (Some "weekly") rt) = Started /\
  jobs (snd (RunScheduler.main ["run_scheduler.py"] (Some "weekly") rt))
  = jobs (setup_schedule "weekly" rt) /\
  forall msg,
    (ERROR, msg)
    ∉ drop (length (log rt))
        (log (snd (RunScheduler.main ["run_scheduler.py"] (Some "weekly") rt))).
Proof.
  apply (runner_starts_on_known_interval ["run_scheduler.py"] (Some "weekly")
           {| jobs := []; log := [] |}).
  apply (bool_decide_unpack _). vm_compute. exact I.
Defined.

End SchedulerMore.

(** ** Configuration: the keyword and website lists *)

Section Configuration.
Import Py Re AIProcessor Config.

Lemma rev_app_append (s1 s2 : string) : String.rev_app s1 s2 = String.rev s1 ++ s2.
Proof.
  unfold String.rev. revert s2. induction s1 as [|c s1 IH]; intros s2; simpl; [done|].
  rewrite (IH (String c s2)), (IH (String c "")).
  by rewrite app_assoc_string.
Qed.

Lemma rev_cons (c : ascii) (s : string) : String.rev (String c s) = String.rev s ++ String c "".
Proof. unfold String.rev at 1. simpl. apply rev_app_append. Qed.

Lemma rev_append (s t : string) : String.rev (s ++ t) = String.rev t ++ String.rev s.
Proof.
  induction s as [|c s IH].
  - by rewrite append_empty_r.
  - rewrite app_cons, !rev_cons, IH. by rewrite app_assoc_string.
Qed.

Lemma rev_involutive (s : string) : String.rev (String.rev s) = s.
Proof.
  induction s as [|c s IH]; [done|]. by rewrite rev_cons, rev_append, IH.
Qed.

Lemma rev_lower (s : string) : String.rev (lower s) = lower (String.rev s).
Proof.
  assert (forall a b, lower (a ++ b) = lower a ++ lower b) as Happ.
  { intros a b. induction a as [|c a IH]; [done|]. rewrite !app_cons. simpl.
    by rewrite IH, app_cons. }
  induction s as [|c s IH]; [done|].
  simpl lower. by rewrite !rev_cons, IH, Happ.
Qed.

(** What [lstrip] returns is empty or starts with a character that is no
    whitespace, and it is the end of its argument. *)
Lemma lstrip_stripped (s : string) : lstrip s = "" \/ stripped (lstrip s) = true.
Proof.
  induction s as [|c s IH]; simpl; [by left|].
  destruct (isspace c) eqn:E; [done|]. right. simpl. by rewrite E.
Qed.

Lemma lstrip_suffix (s : string) : exists blanks, s = blanks ++ lstrip s.
Proof.
  induction s as [|c s [blanks IH]]; simpl.
  - by exists "".
  - destruct (isspace c).
    + exists (String c blanks). by rewrite app_cons, <-IH.
    + by exists "".
Qed.

Lemma stripped_app (s t : string) : stripped s = true -> stripped (s ++ t) = true.
Proof. by destruct s. Qed.

Lemma stripped_lower (s : string) : stripped (lower s) = stripped s.
Proof. destruct s as [|c s]; [done|]. simpl. by rewrite isspace_lower_char. Qed.

(** A text stripped on both sides, when not empty, has no whitespace at
    either end. *)
Lemma strip_stripped (s : string) :
  strip s <> "" ->
  stripped (strip s) = true /\ stripped (String.rev (strip s)) = true.
Proof.
  unfold strip. set (t := lstrip s). set (u := lstrip (String.rev t)).
  intros Hne.
  assert (u <> "") as Hu by (intros Hu; by rewrite Hu in Hne).
  split.
  - destruct (lstrip_suffix (String.rev t)) as [blanks Hblanks]. fold u in Hblanks.
    assert (t = String.rev u ++ String.rev blanks) as Ht.
    { by rewrite <-rev_append, <-Hblanks, rev_involutive. }
    destruct (lstrip_stripped s) as [Hs|Hs]; fold t in Hs.
    + rewrite Hs in Ht. destruct (String.rev u); [done | discriminate].
    + rewrite Ht in Hs. destruct (String.rev u) as [|c r]; [done|]. done.
  - rewrite rev_involutive. by destruct (lstrip_stripped (String.rev t)).
Qed.

(** X19: the keywords read from a non-empty [GENAI_KEYWORDS] are not empty,
    have no whitespace at either end and are in lower case. *)
Theorem parsed_keywords_clean (keywords_str : string) :
  keywords_str <> "" ->
  Forall (fun keyword => stripped keyword = true
                         /\ stripped (String.rev keyword) = true
                         /\ lower keyword = keyword)
         (_parse_keywords keywords_str).
Proof.
  intros Hne. unfold _parse_keywords. rewrite (eqb_empty_false _ Hne).
  apply Forall_map, Forall_forall. intros piece Hin.
  apply list_elem_of_In, filter_In in Hin as [_ Hkeep].
  apply negb_true_iff, String.eqb_neq in Hkeep.
  destruct (strip_stripped piece Hkeep) as [Hfirst Hlast].
  split; [by rewrite stripped_lower|]. split; [|apply lower_idemp].
  by rewrite rev_lower, stripped_lower.
Qed.

Lemma parsed_keywords_clean_witness :
  Forall (fun keyword => stripped keyword = true
                         /\ stripped (String.rev keyword) = true
                         /\ lower keyword = keyword)
         (_parse_keywords " GPT , llm ,, Large Language Model ").
Proof. apply parsed_keywords_clean. discriminate. Defined.

Lemma filter_nil_iff {A} (f : A -> bool) (l : list A) :
  List.filter f l = [] <-> Forall (fun x => f x = false) l.
Proof.
  induction l as [|x l IH]; simpl.
  - split; [constructor | done].
  - destruct (f x) eqn:E.
    + split; [done|]. intros H. apply Forall_cons in H as [H _]. congruence.
    + rewrite IH. split; [by constructor|]. intros H. by apply Forall_cons in H as [_ H].
Qed.

(** X20: the configuration is rejected for want of a website exactly when
    [WEBSITES] is set and none of its comma-separated pieces holds anything
    but whitespace; without [WEBSITES] there is always a list to monitor,
    that of the database or the built-in one. *)
Theorem no_website_iff_blank_setting (websites_str : string)
  (company_websites : result (list string)) :
  _validate_config (_parse_websites websites_str company_websites) = Raise ValueError
  <-> websites_str <> ""
      /\ Forall (fun url => strip url = "") (split_char "," websites_str).
Proof.
  unfold _parse_websites.
  destruct (String.eqb_spec websites_str "") as [->|Hne]; simpl.
  - split; [|by intros [? _]].
    destruct company_websites as [[|w ws]|e]; discriminate.
  - set (kept := List.filter _ _).
    assert (kept = [] <-> Forall (fun url => strip url = "")
                                 (split_char "," websites_str)) as Hkept.
    { subst kept. rewrite filter_nil_iff. apply Forall_iff. intros url.
      rewrite negb_false_iff. apply String.eqb_eq. }
    rewrite <-Hkept. destruct kept; simpl.
    + split; [done | done].
    + split; [discriminate|]. by intros [_ ?].
Qed.

(** *** A text without words under any configuration *)

(** Every keyword that [_parse_keywords] returns, a default one or one read
    from [GENAI_KEYWORDS], has no whitespace at either end. *)
Lemma parsed_keywords_stripped (keywords_str : string) :
  forallb stripped (_parse_keywords keywords_str) = true.
Proof.
  unfold _parse_keywords.
  destruct (String.eqb_spec keywords_str "") as [->|Hne]; [done|].
  apply forallb_forall. intros keyword Hin.
  apply in_map_iff in Hin as (piece & <- & Hin).
  apply filter_In in Hin as [_ Hkeep].
  apply negb_true_iff, String.eqb_neq in Hkeep.
  rewrite stripped_lower. by apply strip_stripped.
Qed.

(** C8: whatever [GENAI_KEYWORDS] holds, for a text that has a length and no
    word the density that the decision rule uses is the number of matched
    keywords over 1, the word count that [max(word_count, 1)] substitutes;
    no configured keyword occurs in such a text, so both are 0. *)
Theorem zero_words_density (keywords_str content : string) :
  len content <> 0 ->
  word_count content = 0 ->
  let genai_keywords := _parse_keywords keywords_str in
  (keyword_density genai_keywords content
   == inject_Z (keyword_matches genai_keywords content)
      / inject_Z (Z.max (word_count content) 1))%Q /\
  (keyword_density genai_keywords content
   == inject_Z (keyword_matches genai_keywords content) / inject_Z 1)%Q /\
  keyword_matches genai_keywords content = 0.
Proof.
  intros _ Hwc genai_keywords.
  rewrite (no_words_no_density _ _ Hwc).
  rewrite (stripped_keywords_density genai_keywords content
             (parsed_keywords_stripped keywords_str) Hwc), Hwc.
  by repeat split.
Qed.

Lemma zero_words_density_witness :
  let genai_keywords := _parse_keywords " , AI ,ml" in
  (keyword_density genai_keywords "   "
   == inject_Z (keyword_matches genai_keywords "   ")
      / inject_Z (Z.max (word_count "   ") 1))%Q /\
  (keyword_density genai_keywords "   "
   == inject_Z (keyword_matches genai_keywords "   ") / inject_Z 1)%Q /\
  keyword_matches genai_keywords "   " = 0.
Proof. apply (zero_words_density " , AI ,ml" "   "); [discriminate | reflexivity]. Defined.


Lemma isspace_not_word (c : ascii) : isspace c = true -> isword c = false.
Proof.
  destruct c as [[] [] [] [] [] [] [] []]; vm_compute; intros H;
    (reflexivity || discriminate H).
Qed.

Lemma search_boundary_blank (r : regex) (s : string) (prev : option ascii) :
  word_count s = 0 ->
  from_option isword false prev = false ->
  search_from (Seq Boundary r) prev s = false.
Proof.
  revert prev. induction s as [|c s IH]; intros prev Hwc Hprev; simpl.
  - unfold at_boundary. by rewrite Hprev.
  - destruct (no_words_all_space _ Hwc) as [Hc Hrest].
    unfold at_boundary. rewrite Hprev, (isspace_not_word _ Hc). simpl.
    apply IH; [done|]. simpl. by apply isspace_not_word.
Qed.

Lemma pattern_matches_blank (content : string) :
  word_count content = 0 -> pattern_matches content = 0.
Proof.
  intros Hwc. rewrite <-word_count_lower in Hwc.
  unfold pattern_matches. rewrite count_if_filter.
  replace (List.filter _ genai_patterns) with (@nil regex); [done|].
  symmetry. apply filter_nil_iff.
  unfold genai_patterns, word, cat. simpl foldr.
  repeat (constructor; [by apply search_boundary_blank|]). constructor.
Qed.

(** X21: whatever [GENAI_KEYWORDS] holds, a text without a word, empty or
    made of whitespace, is never related. *)
Theorem blank_text_never_related (keywords_str content : string) :
  word_count content = 0 ->
  is_genai_related (_parse_keywords keywords_str) content = false.
Proof.
  intros Hwc.
  assert (keyword_matches (_parse_keywords keywords_str) content = 0) as Hkw
    by (apply stripped_keywords_density; [apply parsed_keywords_stripped | done]).
  rewrite is_genai_related_rules, Hkw, (pattern_matches_blank _ Hwc).
  simpl. by rewrite !andb_false_r.
Qed.

Lemma blank_text_never_related_witness :
  is_genai_related (_parse_keywords " , AI ,ml") "   " = false.
Proof. apply blank_text_never_related. reflexivity. Defined.

End Configuration.

(** ** Helpers of [utils.py] *)

Section Helpers.
Import Py Utils.

(** X22: when the suffix fits in [max_length], the truncated text never has
    more than [max_length] characters, and a text that already fits is
    returned as it is. *)
Theorem truncate_text_fits (text suffix : string) (max_length : Z) :
  len suffix <= max_length ->
  len (truncate_text text max_length suffix) <= max_length /\
  (len text <= max_length -> truncate_text text max_length suffix = text).
Proof.
  intros Hsuffix. unfold truncate_text.
  assert (0 <= len suffix) by (unfold len; lia).
  destruct (String.eqb_spec text "") as [->|Hne]; simpl.
  { split; [|done]. change (len "") with 0. lia. }
  destruct (len text <=? max_length) eqn:E.
  - apply Z.leb_le in E. by split.
  - apply Z.leb_gt in E. split; [|lia].
    rewrite len_app.
    pose proof (len_slice_to (max_length - len suffix) text). lia.
Qed.

Lemma truncate_text_fits_witness :
  len (truncate_text "Bank launches an assistant" 12 "...") <= 12 /\
  (len "Bank launches an assistant" <= 12 ->
   truncate_text "Bank launches an assistant" 12 "..." = "Bank launches an assistant").
Proof. apply truncate_text_fits. vm_compute. discriminate. Defined.

Lemma length_skip (n : nat) (s : string) :
  String.length (skip n s) = (String.length s - n)%nat.
Proof.
  revert s. induction n as [|n IH]; intros [|c s]; simpl; done.
Qed.

Lemma len_times (s : string) (n : Z) : len (times s n) = len s * Z.max n 0.
Proof.
  unfold times.
  replace (Z.max n 0) with (Z.of_nat (Z.to_nat n)) by lia.
  induction (Z.to_nat n) as [|k IH]; simpl replicate.
  - change (len (String.concat "" [])) with 0. lia.
  - destruct k as [|k].
    + simpl. lia.
    + change (String.concat "" (s :: replicate (S k) s))
        with (s ++ "" ++ String.concat "" (replicate (S k) s)).
      rewrite !len_app, IH. change (len "") with 0. lia.
Qed.

Lemma len_slice_to_exact (m : Z) (s : string) :
  0 <= m <= len s -> len (slice_to m s) = m.
Proof.
  intros [Hm Hs]. unfold slice_to. rewrite (proj2 (Z.leb_le 0 m) Hm).
  unfold len in *. rewrite length_take_string. lia.
Qed.

Lemma len_slice_from_end (m : Z) (s : string) :
  m < 0 -> 0 <= len s + m -> len (slice_from m s) = - m.
Proof.
  intros Hm Hs. unfold slice_from. rewrite (proj2 (Z.leb_gt 0 m) Hm).
  unfold len in *. rewrite length_skip. lia.
Qed.

(** X23: with a mask of one character the masked text is as long as the
    data: a text of up to four characters is masked entirely, a longer one
    keeps its first two and its last two characters. *)
Theorem mask_keeps_length (data mask_char : string) :
  len mask_char = 1 ->
  len (mask_sensitive_data data mask_char) = len data.
Proof.
  intros Hmask. unfold mask_sensitive_data.
  assert (0 <= len data) by (unfold len; lia).
  destruct (String.eqb_spec data "") as [->|Hne]; [done|]. simpl.
  destruct (len data <=? 4) eqn:E.
  - rewrite len_times. lia.
  - apply Z.leb_gt in E. rewrite !len_app, len_times.
    rewrite len_slice_to_exact, len_slice_from_end; lia.
Qed.

Lemma mask_keeps_length_witness :
  len (mask_sensitive_data "secretpassword" "*") = len "secretpassword".
Proof. apply mask_keeps_length. reflexivity. Defined.

(** *** The retry wrapper *)

Lemma back_off_ok (warning : nat -> Exn -> Number -> result unit)
  (sleep : Number -> result unit) (delay wait : Number) (attempt : nat) (e : Exn) :
  wait_time delay attempt = Ok wait /\ warning attempt e wait = Ok tt
  /\ sleep wait = Ok tt ->
  back_off warning sleep delay attempt e = Ok wait.
Proof. intros (Hwait & Hlog & Hsleep). unfold back_off. by rewrite Hwait, Hlog, Hsleep. Qed.

(** An [int] delay is doubled exactly, at every attempt. *)
Lemma wait_time_int (n : Z) (attempt : nat) :
  wait_time (PyInt n) attempt = Ok (PyInt (n * 2 ^ Z.of_nat attempt)).
Proof. reflexivity. Qed.

(** A [float] delay cannot be doubled 1024 times: the power has no
    [float]. *)
Lemma wait_time_float (x : float) (attempt : nat) :
  wait_time (PyFloat x) attempt
  = if (attempt <? 1024)%nat then Ok (PyFloat (x * float_pow2 attempt)%float)
    else Raise OverflowError.
Proof. reflexivity. Qed.

(** The attempts [attempt], ..., [attempt + k - 1] fail and are backed off
    with [waits]; what the wrapper does next is what it does from attempt
    [attempt + k] on. *)
Lemma retry_from_failures {A} (warning : nat -> Exn -> Number -> result unit)
  (sleep : Number -> result unit) (func : nat -> result A) (max_retries : Z)
  (delay : Number) (errs : nat -> Exn) (waits : nat -> Number) (k : nat) :
  forall remaining attempt,
    (forall i, (attempt <= i < attempt + k)%nat -> func i = Raise (errs i)) ->
    (forall i, (attempt <= i < attempt + k)%nat ->
               back_off warning sleep delay i (errs i) = Ok (waits i)) ->
    Z.of_nat (attempt + k) < max_retries ->
    (k <= remaining)%nat ->
    retry_from warning sleep func max_retries delay remaining attempt
    = (fst (retry_from warning sleep func max_retries delay (remaining - k)
              (attempt + k)),
       (map waits (seq attempt k)
        ++ snd (retry_from warning sleep func max_retries delay (remaining - k)
                  (attempt + k)))%list).
Proof.
  induction k as [|k IH]; intros remaining attempt Hfail Hback Hlt Hrem.
  - rewrite Nat.sub_0_r, Nat.add_0_r. simpl. by destruct (retry_from _ _ _ _ _ _ _).
  - destruct remaining as [|r]; [lia|]. simpl.
    rewrite (Hfail attempt) by lia.
    assert ((Z.of_nat attempt =? max_retries - 1) = false) as ->
      by (apply Z.eqb_neq; lia).
    rewrite (Hback attempt) by lia.
    rewrite (IH r (S attempt)); [|intros i Hi; apply Hfail; lia
                                 |intros i Hi; apply Hback; lia | lia | lia].
    by replace (S attempt + k)%nat with (attempt + S k)%nat by lia.
Qed.

(** X24: when the first call that succeeds is call number [k], with
    [k < max_retries], and each of the [k] waits before it, [delay],
    [2 * delay], [4 * delay], ... as Python computes them, is logged and
    slept without an exception, the wrapper returns the value of that call
    after exactly these waits. *)
Theorem retry_returns_first_success {A} (warning : nat -> Exn -> Number -> result unit)
  (sleep : Number -> result unit) (func : nat -> result A) (max_retries : Z)
  (delay : Number) (errs : nat -> Exn) (waits : nat -> Number) (value : A) (k : nat) :
  (forall i, (i < k)%nat -> func i = Raise (errs i)) ->
  func k = Ok value ->
  Z.of_nat k < max_retries ->
  (forall i, (i < k)%nat ->
             wait_time delay i = Ok (waits i) /\ warning i (errs i) (waits i) = Ok tt
             /\ sleep (waits i) = Ok tt) ->
  retry_on_failure warning sleep func max_retries delay
  = (Ok (Some value), map waits (seq 0 k)).
Proof.
  intros Hfail Hok Hlt Hback. unfold retry_on_failure.
  rewrite (retry_from_failures warning sleep func max_retries delay errs waits k);
    [|intros i Hi; apply Hfail; lia
     |intros i Hi; apply back_off_ok, Hback; lia | simpl; lia | lia].
  destruct (Z.to_nat max_retries - k)%nat as [|r] eqn:E; [lia|].
  simpl. rewrite Hok. simpl. by rewrite app_nil_r.
Qed.

Lemma retry_returns_first_success_witness :
  retry_on_failure Samples.warning Samples.sleep
    (fun n => if (n <? 2)%nat then Raise OSError else Ok n) 3 (PyFloat 0.5)
  = (Ok (Some 2%nat), map (fun i => PyFloat (0.5 * float_pow2 i)) (seq 0 2)).
Proof.
  apply (retry_returns_first_success _ _ _ 3 (PyFloat 0.5) (fun _ => OSError)).
  - intros i Hi. apply Nat.ltb_lt in Hi. by rewrite Hi.
  - reflexivity.
  - lia.
  - intros i Hi.
    assert (i = 0 \/ i = 1)%nat as [-> | ->] by lia; repeat split; reflexivity.
Defined.

(** X25: when all of the first [max_retries] calls fail, and each of the
    [max_retries - 1] waits between them is computed, logged and slept
    without an exception, the wrapper raises the exception of the last call
    after exactly these waits. *)
Theorem retry_raises_last_failure {A} (warning : nat -> Exn -> Number -> result unit)
  (sleep : Number -> result unit) (func : nat -> result A) (max_retries : nat)
  (delay : Number) (errs : nat -> Exn) (waits : nat -> Number) :
  (0 < max_retries)%nat ->
  (forall i, (i < max_retries)%nat -> func i = Raise (errs i)) ->
  (forall i, (i < max_retries - 1)%nat ->
             wait_time delay i = Ok (waits i) /\ warning i (errs i) (waits i) = Ok tt
             /\ sleep (waits i) = Ok tt) ->
  retry_on_failure warning sleep func (Z.of_nat max_retries) delay
  = (Raise (errs (max_retries - 1)%nat), map waits (seq 0 (max_retries - 1))).
Proof.
  intros Hpos Hfail Hback. unfold retry_on_failure. rewrite Nat2Z.id.
  rewrite (retry_from_failures warning sleep func (Z.of_nat max_retries) delay errs
             waits (max_retries - 1));
    [|intros i Hi; apply Hfail; lia
     |intros i Hi; apply back_off_ok, Hback; lia | simpl; lia | lia].
  replace (max_retries - (max_retries - 1))%nat with 1%nat by lia.
  simpl. rewrite (Hfail (max_retries - 1)%nat) by lia.
  assert ((Z.of_nat (max_retries - 1) =? Z.of_nat max_retries - 1) = true) as ->
    by (apply Z.eqb_eq; lia).
  simpl. by rewrite app_nil_r.
Qed.

Lemma retry_raises_last_failure_witness :
  retry_on_failure Samples.warning Samples.sleep
    (fun n => if (n <? 2)%nat then Raise OSError else @Raise nat ValueError)
    (Z.of_nat 3) (PyInt 2)
  = (Raise ValueError, map (fun i => PyInt (2 * 2 ^ Z.of_nat i)) (seq 0 (3 - 1))).
Proof.
  apply (retry_raises_last_failure _ _ _ 3 (PyInt 2)
           (fun n => if (n <? 2)%nat then OSError else ValueError)).
  - lia.
  - intros i Hi. by destruct (i <? 2)%nat.
  - intros i Hi.
    assert (i = 0 \/ i = 1)%nat as [-> | ->] by lia; repeat split; reflexivity.
Defined.

(** X30: when the calls up to number [k] fail, another attempt is left, and
    the wait after call [k] cannot be computed, logged or slept, the wrapper
    raises the exception of that step, not the one of [func], and [func] is
    not called again. *)
Theorem failed_wait_ends_retry {A} (warning : nat -> Exn -> Number -> result unit)
  (sleep : Number -> result unit) (func func' : nat -> result A) (max_retries : Z)
  (delay : Number) (errs : nat -> Exn) (waits : nat -> Number) (k : nat) (e : Exn) :
  (forall i, (i <= k)%nat -> func i = Raise (errs i)) ->
  (forall i, (i <= k)%nat -> func' i = func i) ->
  Z.of_nat k < max_retries - 1 ->
  (forall i, (i < k)%nat ->
             wait_time delay i = Ok (waits i) /\ warning i (errs i) (waits i) = Ok tt
             /\ sleep (waits i) = Ok tt) ->
  back_off warning sleep delay k (errs k) = Raise e ->
  retry_on_failure warning sleep func max_retries delay
  = (Raise e, map waits (seq 0 k)) /\
  retry_on_failure warning sleep func' max_retries delay
  = retry_on_failure warning sleep func max_retries delay.
Proof.
  intros Hfail Hsame Hlt Hback Hraise.
  assert (forall f : nat -> result A,
            (forall i, (i <= k)%nat -> f i = Raise (errs i)) ->
            retry_on_failure warning sleep f max_retries delay
            = (Raise e, map waits (seq 0 k))) as Hrun.
  { intros f Hf. unfold retry_on_failure.
    rewrite (retry_from_failures warning sleep f max_retries delay errs waits k);
      [|intros i Hi; apply Hf; lia
       |intros i Hi; apply back_off_ok, Hback; lia | simpl; lia | lia].
    destruct (Z.to_nat max_retries - k)%nat as [|r] eqn:E; [lia|].
    simpl. rewrite (Hf k) by lia.
    assert ((Z.of_nat k =? max_retries - 1) = false) as ->
      by (apply Z.eqb_neq; lia).
    rewrite Hraise. simpl. by rewrite app_nil_r. }
  split; [by apply Hrun|].
  rewrite !Hrun; [done | done |].
  intros i Hi. rewrite Hsame by done. by apply Hfail.
Qed.

Lemma failed_wait_ends_retry_witness :
  retry_on_failure Samples.warning Samples.sleep
    (fun _ => @Raise nat OSError) 3 (PyFloat (-1))
  = (Raise ValueError, map (fun _ => PyFloat (-1)) (seq 0 0)) /\
  retry_on_failure Samples.warning Samples.sleep
    (fun n => if (n <? 1)%nat then Raise OSError else Ok n) 3 (PyFloat (-1))
  = retry_on_failure Samples.warning Samples.sleep
      (fun _ => @Raise nat OSError) 3 (PyFloat (-1)).
Proof.
  apply (failed_wait_ends_retry _ _ _ _ 3 (PyFloat (-1)) (fun _ => OSError)
           (fun _ => PyFloat (-1)) 0).
  - reflexivity.
  - intros i Hi. assert (i = 0)%nat as -> by lia. reflexivity.
  - lia.
  - intros i Hi. lia.
  - reflexivity.
Defined.

End Helpers.

(** ** The monitoring run and the run loop *)

Section Pipeline.
Import Py AIProcessor Main.

Variable DB : Type.
Variable is_article_seen : DB -> string -> result bool.
Variable save_article : DB -> SaveCall -> DB * result unit.

Abbreviation step := (process_article DB is_article_seen save_article).
Abbreviation steps := (process_articles DB is_article_seen save_article).
Abbreviation site_step := (process_website DB is_article_seen save_article).
Abbreviation run := (monitor DB is_article_seen save_article).

(** The article with the summary that the run attaches to it. *)
Lemma process_article_collects (c : Components DB) (Q : Article -> Prop)
  (article : Article) (st : State DB) :
  (is_genai_related (genai_keywords c) (content article) = true ->
   Q {| title := title article; url := url article; content := content article;
        source_url := source_url article;
        summary := Some (summarize_article (genai_keywords c) (summarizer c)
                                           (content article) 150 50) |}) ->
  Forall Q (new_articles st) ->
  Forall Q (new_articles (fst (step c article st))).
Proof.
  intros Hnew Hst. unfold process_article.
  destruct (is_article_seen (db st) (url article)) as [[|]|e]; try done.
  destruct (is_genai_related _ _) eqn:E.
  - destruct (save_article _ _) as [db' saved]. simpl.
    apply Forall_app. split; [done|]. constructor; [by apply Hnew | constructor].
  - by destruct (save_article _ _) as [db' saved].
Qed.

Lemma process_articles_collects (c : Components DB) (Q : Article -> Prop)
  (articles : list Article) (st : State DB) :
  (forall article, article ∈ articles ->
     is_genai_related (genai_keywords c) (content article) = true ->
     Q {| title := title article; url := url article; content := content article;
          source_url := source_url article;
          summary := Some (summarize_article (genai_keywords c) (summarizer c)
                                             (content article) 150 50) |}) ->
  Forall Q (new_articles st) ->
  Forall Q (new_articles (fst (steps c articles st))).
Proof.
  revert st. induction articles as [|article rest IH]; intros st Hnew Hst; [done|].
  simpl.
  pose proof (process_article_collects c Q article st) as Hstep.
  destruct (step c article st) as [st' [[]|e]]; simpl in *.
  - apply IH.
    + intros a Ha. apply Hnew. by right.
    + apply Hstep; [|done]. apply Hnew. by left.
  - apply Hstep; [|done]. apply Hnew. by left.
Qed.

Lemma monitor_collects (c : Components DB) (Q : Article -> Prop)
  (scraped : list (result (list Article))) (st : State DB) :
  (forall articles article, Ok articles ∈ scraped -> article ∈ articles ->
     is_genai_related (genai_keywords c) (content article) = true ->
     Q {| title := title article; url := url article; content := content article;
          source_url := source_url article;
          summary := Some (summarize_article (genai_keywords c) (summarizer c)
                                             (content article) 150 50) |}) ->
  Forall Q (new_articles st) ->
  Forall Q (new_articles
              (fold_left (fun st site => site_step c site st) scraped st)).
Proof.
  revert st. induction scraped as [|site rest IH]; intros st Hnew Hst; [done|].
  simpl. apply IH.
  - intros articles a Hin. apply Hnew. by right.
  - destruct site as [articles|e]; [|done]. simpl.
    apply process_articles_collects; [|done].
    intros a Ha. apply (Hnew articles); [by left | done].
Qed.

(** X26: every article that a run collects for publication is one of the
    scraped articles, is classified as related, and carries the summary
    that [summarize_article] gives for its text with the default lengths. *)
Theorem collected_articles_are_related (c : Components DB)
  (scraped : list (result (list Article))) (article : Article) :
  article ∈ new_articles (run c scraped) ->
  is_genai_related (genai_keywords c) (content article) = true /\
  summary article
  = Some (summarize_article (genai_keywords c) (summarizer c) (content article) 150 50) /\
  exists articles original,
    Ok articles ∈ scraped /\ original ∈ articles /\
    title article = title original /\ url article = url original /\
    content article = content original /\ source_url article = source_url original.
Proof.
  revert article. apply Forall_forall. unfold monitor.
  apply monitor_collects; [|constructor].
  intros articles original Hsite Horiginal Hrelated. simpl.
  split; [done|]. split; [done|]. by exists articles, original.
Qed.

Lemma process_article_extends (c : Components DB) (article : Article) (st : State DB) :
  new_articles st `prefix_of` new_articles (fst (step c article st)).
Proof.
  unfold process_article.
  destruct (is_article_seen (db st) (url article)) as [[|]|e]; try done.
  destruct (is_genai_related _ _); destruct (save_article _ _) as [db' saved]; simpl.
  - by apply prefix_app_r.
  - done.
Qed.

Lemma process_articles_extends (c : Components DB) (articles : list Article)
  (st : State DB) :
  new_articles st `prefix_of` new_articles (fst (steps c articles st)).
Proof.
  revert st. induction articles as [|article rest IH]; intros st; [done|]. simpl.
  pose proof (process_article_extends c article st) as Hstep.
  destruct (step c article st) as [st' [[]|e]]; simpl in *; [|done].
  etrans; [exact Hstep | apply IH].
Qed.

Lemma monitor_extends (c : Components DB) (scraped : list (result (list Article)))
  (st : State DB) :
  new_articles st
  `prefix_of` new_articles (fold_left (fun st site => site_step c site st) scraped st).
Proof.
  revert st. induction scraped as [|site rest IH]; intros st; [done|]. simpl.
  etrans; [|apply IH].
  destruct site as [articles|e]; [apply process_articles_extends | done].
Qed.

(** X27: a failure at one website costs nothing elsewhere: a website that
    cannot be scraped is skipped, the run collecting and saving exactly what
    it would without it; and what the run has collected from the websites so
    far stays collected, in the same order, whatever happens at the
    websites after them. *)
Theorem failed_website_is_skipped (c : Components DB)
  (before after : list (result (list Article))) (e : Exn) :
  run c (before ++ Raise e :: after) = run c (before ++ after) /\
  new_articles (run c before) `prefix_of` new_articles (run c (before ++ after)).
Proof.
  unfold monitor. rewrite !fold_left_app. split; [done|]. apply monitor_extends.
Qed.

End Pipeline.

Section PipelineSamples.
Import Py AIProcessor Main.

Lemma collected_articles_are_related_witness :
  let article :=
    {| title := "Bank launches assistant";
       url := "https://bank.example/new";
       content := "We use ChatGPT for LLM work";
       source_url := Some "https://bank.example/news";
       summary := Some "Summary not available" |} in
  is_genai_related (genai_keywords Samples.components) (content article) = true /\
  summary article
  = Some (summarize_article (genai_keywords Samples.components)
            (summarizer Samples.components) (content article) 150 50) /\
  exists articles original,
    Ok articles ∈ Samples.scraped /\ original ∈ articles /\
    title article = title original /\ url article = url original /\
    content article = content original /\ source_url article = source_url original.
Proof.
  apply (collected_articles_are_related (list string) Samples.seen_in Samples.save_in
           Samples.components Samples.scraped).
  vm_compute. left.
Defined.

(** The run on the sample websites collects the one new related article. *)
Example monitor_samples :
  map url (new_articles (monitor (list string) Samples.seen_in Samples.save_in
                           Samples.components Samples.scraped))
  = ["https://bank.example/new"] /\
  db (monitor (list string) Samples.seen_in Samples.save_in
        Samples.components Samples.scraped)
  = ["https://bank.example/dull"; "https://bank.example/new"; "https://bank.example/old"].
Proof. split; vm_compute; reflexivity. Qed.

End PipelineSamples.

Section RunLoop.
Import Py Main ContentScheduler SchedulerLoop.

Variable now_text : nat -> string.
Variable exn_text : Exn -> string.

Abbreviation monitoring := (run_monitoring now_text exn_text).
Abbreviation pending := (run_pending now_text exn_text).
Abbreviation looping := (loop now_text exn_text).
Abbreviation starting := (start now_text exn_text).

Lemma run_monitoring_running (outcome : Completion) (s : Scheduler) :
  is_running (snd (monitoring outcome s)) = is_running s.
Proof. by destruct outcome. Qed.

(** X28: a run that fails outside the handlers of the websites stops the
    scheduler: when the configuration or a component cannot be built, or the
    publisher raises, [main] ends with [sys.exit(1)]; the handler of
    [run_monitoring] does not catch that, so [start] ends during the first
    run, whatever would follow, and the process exits with status 1. *)
Theorem failed_run_stops_scheduler (DB : Type)
  (is_article_seen : DB -> string -> result bool)
  (save_article : DB -> SaveCall -> DB * result Datatypes.unit)
  (components : result (Components DB)) (e : Exn)
  (scraped : list (result (list Article)))
  (publish : list Article -> result Datatypes.unit) (get_web_url : result string)
  (passes : list Pass) (s : Scheduler) :
  let first :=
    Main.main DB is_article_seen save_article (Ok tt) components scraped publish
      get_web_url in
  components = Raise e \/
  (exists c, components = Ok c /\
             publish (new_articles (monitor DB is_article_seen save_article c scraped))
             = Raise e) ->
  fst (starting first passes s) = Ended (Exits 1) /\
  exit_status (fst (starting first passes s)) = Some 1.
Proof.
  intros first Hfail.
  assert (first = Exits 1) as ->; [|done].
  subst first. unfold Main.main.
  destruct Hfail as [->|(c & -> & Hpublish)]; [done|].
  destruct (new_articles _) as [|a found]; by rewrite Hpublish.
Qed.

(** A job or a pass that ends with nothing worse than an exception. *)
Lemma run_pending_harmless (due : list Completion) (s : Scheduler) :
  Forall (fun c => c = Returns \/ exists e, c = Raises e) due ->
  fst (pending due s) = Returns /\ is_running (snd (pending due s)) = is_running s.
Proof.
  revert s. induction due as [|c due IH]; intros s Hdue; [done|].
  apply Forall_cons in Hdue as [Hc Hdue]. simpl.
  assert (fst (monitoring c s) = Returns) as Hfst
    by (destruct Hc as [->|[e ->]]; done).
  pose proof (run_monitoring_running c s) as Hrun.
  destruct (monitoring c s) as [c' s']. simpl in *. subst c'.
  destruct (IH s' Hdue) as [H1 H2]. rewrite H1, H2. done.
Qed.

Lemma loop_survives (passes : list Pass) (s : Scheduler) :
  Forall (fun pass =>
            Forall (fun c => c = Returns \/ exists e, c = Raises e) (due pass)
            /\ (rest pass = Returns \/ exists e, rest pass = Raises e)
            /\ cooldown pass = NoSignal) passes ->
  is_running s = true ->
  fst (looping passes s) = Running /\ is_running (snd (looping passes s)) = true.
Proof.
  revert s. induction passes as [|pass passes IH]; intros s Hpasses Hrun.
  - simpl. by rewrite Hrun.
  - apply Forall_cons in Hpasses as [(Hdue & Hrest & Hcool) Hpasses].
    simpl. rewrite Hrun. simpl.
    destruct (run_pending_harmless (due pass) s Hdue) as [Hc Hs].
    destruct (pending (due pass) s) as [c s']. simpl in *. subst c.
    destruct Hrest as [->|[e ->]].
    + apply IH; [done | congruence].
    + rewrite Hcool. apply IH; [done|]. simpl. congruence.
Qed.

(** X29: no exception ends the run loop: when every run of [main] and every
    pass of the loop either returns or raises an [Exception], and no signal
    arrives, the scheduler is still running after any number of passes. *)
Theorem exceptions_never_stop_scheduler (first : Completion) (passes : list Pass)
  (s : Scheduler) :
  first = Returns \/ (exists e, first = Raises e) ->
  Forall (fun pass =>
            Forall (fun c => c = Returns \/ exists e, c = Raises e) (due pass)
            /\ (rest pass = Returns \/ exists e, rest pass = Raises e)
            /\ cooldown pass = NoSignal) passes ->
  fst (starting first passes s) = Running /\
  is_running (snd (starting first passes s)) = true /\
  exit_status (fst (starting first passes s)) = None.
Proof.
  intros Hfirst Hpasses. unfold start.
  assert (forall s', is_running s' = true ->
            fst (looping passes s') = Running /\
            is_running (snd (looping passes s')) = true /\
            exit_status (fst (looping passes s')) = None) as Hloop.
  { intros s' Hs'. destruct (loop_survives passes s' Hpasses Hs') as [H1 H2].
    by rewrite H1. }
  destruct Hfirst as [->|[e ->]]; simpl; by apply Hloop.
Qed.

End RunLoop.

Section RunLoopSamples.
Import Py Main ContentScheduler SchedulerLoop.

Lemma failed_run_stops_scheduler_witness :
  let first :=
    Main.main (list string) Samples.seen_in Samples.save_in (Ok tt)
      (Raise ValueError) Samples.scraped (fun _ => Ok tt) (Ok "docs/index.html") in
  let s := {| runtime := {| jobs := []; log := [] |}; is_running := false;
              readings := 0 |} in
  fst (start (fun _ => "2025-06-01 12:00:00") (fun _ => "failed") first [] s)
  = Ended (Exits 1) /\
  exit_status (fst (start (fun _ => "2025-06-01 12:00:00") (fun _ => "failed")
                          first [] s)) = Some 1.
Proof.
  apply (failed_run_stops_scheduler (fun _ => "2025-06-01 12:00:00")
           (fun _ => "failed") (list string) Samples.seen_in Samples.save_in
           (Raise ValueError) ValueError).
  by left.
Defined.

Lemma exceptions_never_stop_scheduler_witness :
  let passes :=
    [ {| due := [Returns; Raises OSError]; rest := Returns; cooldown := NoSignal |};
      {| due := []; rest := Raises RuntimeError; cooldown := NoSignal |} ] in
  let s := {| runtime := {| jobs := []; log := [] |}; is_running := false;
              readings := 0 |} in
  fst (start (fun _ => "2025-06-01 12:00:00") (fun _ => "failed")
             (Raises ValueError) passes s) = Running /\
  is_running (snd (start (fun _ => "2025-06-01 12:00:00") (fun _ => "failed")
                         (Raises ValueError) passes s)) = true /\
  exit_status (fst (start (fun _ => "2025-06-01 12:00:00") (fun _ => "failed")
                          (Raises ValueError) passes s)) = None.
Proof.
  apply exceptions_never_stop_scheduler.
  - right. by exists ValueError.
  - constructor.
    { split; [|split; [by left | done]].
      constructor; [by left|]. constructor; [right; by eexists|]. constructor. }
    constructor; [|constructor].
    split; [constructor|]. split; [right; by eexists | done].
Defined.

(** An interrupt in a pass ends the loop in the ordinary way, with status 0;
    the passes after it are not run. *)
Example interrupt_stops_scheduler :
  let passes :=
    [ {| due := []; rest := Interrupts; cooldown := NoSignal |};
      {| due := [Exits 1]; rest := Returns; cooldown := NoSignal |} ] in
  let s := {| runtime := {| jobs := []; log := [] |}; is_running := false;
              readings := 0 |} in
  fst (start (fun _ => "2025-06-01 12:00:00") (fun _ => "failed") Returns passes s)
  = Ended Returns /\
  map fst (log (runtime (snd (start (fun _ => "2025-06-01 12:00:00")
                                    (fun _ => "failed") Returns passes s))))
  = [INFO; INFO; INFO; INFO; INFO; INFO].
Proof. split; reflexivity. Qed.

End RunLoopSamples.
